(** * finance-tracker-bot: the date parser, the week range, the weekly summary
      and the command handlers of [bot.py], embedded in Rocq.

    The file follows [bot.py] from top to bottom.  The Python runtime pieces
    the bot relies on are embedded next to it: [datetime.date] (proleptic
    Gregorian ordinals, as in CPython's [_pydatetime]), [strptime] for the
    three directives the bot uses, dictionaries as [gmap], binary64 floats as
    Rocq's primitive floats, and exceptions as an error monad over the state
    of the two worksheets. *)

From Stdlib Require Import ZArith Lia Bool Ascii String List.
From Stdlib Require Import Floats.PrimFloat Floats.SpecFloat Floats.FloatOps Floats.FloatAxioms.
From stdpp Require Import base option list strings pretty gmap.

Open Scope string_scope.
Open Scope Z_scope.

(* ===================================================================== *)
(** * Python exceptions and results *)
(* ===================================================================== *)

(** The kinds of exception that the modelled code can raise.  Messages are
    not modelled: every [except Exception] handler of the bot only logs
    them. *)
Inductive exn : Type :=
| ValueError
| TypeError
| KeyError
| IndexError
| OverflowError.

Inductive result (A : Type) : Type :=
| Ok (a : A)
| Raise (e : exn).
Arguments Ok {A} a.
Arguments Raise {A} e.

Definition rbind {A B : Type} (r : result A) (k : A -> result B) : result B :=
  match r with
  | Ok a => k a
  | Raise e => Raise e
  end.

Definition is_ok {A : Type} (r : result A) : bool :=
  match r with Ok _ => true | Raise _ => false end.

(* ===================================================================== *)
(** * [datetime.date] *)
(* ===================================================================== *)

Module PyDate.

(** A [datetime.date] object: its three fields. *)
Record date : Type := mkdate { year : Z; month : Z; day : Z }.

Definition MINYEAR : Z := 1.
Definition MAXYEAR : Z := 9999.

(** [_DAYS_IN_MONTH] and [_DAYS_BEFORE_MONTH], indexed from 1; index 0
    holds the placeholder -1. *)
Definition _DAYS_IN_MONTH : list Z :=
  [-1; 31; 28; 31; 30; 31; 30; 31; 31; 30; 31; 30; 31].
Definition _DAYS_BEFORE_MONTH : list Z :=
  [-1; 0; 31; 59; 90; 120; 151; 181; 212; 243; 273; 304; 334].

(** List indexing by a non-negative index known to be in range. *)
Definition table (t : list Z) (i : Z) : Z := nth (Z.to_nat i) t (-1).

Definition b2z (b : bool) : Z := if b then 1 else 0.

Definition _is_leap (y : Z) : bool :=
  (y mod 4 =? 0) && (negb (y mod 100 =? 0) || (y mod 400 =? 0)).

Definition _days_before_year (y : Z) : Z :=
  let y' := y - 1 in y' * 365 + y' / 4 - y' / 100 + y' / 400.

Definition _days_in_month (y m : Z) : Z :=
  if (m =? 2) && _is_leap y then 29 else table _DAYS_IN_MONTH m.

Definition _days_before_month (y m : Z) : Z :=
  table _DAYS_BEFORE_MONTH m + b2z ((2 <? m) && _is_leap y).

Definition _ymd2ord (y m d : Z) : Z :=
  _days_before_year y + _days_before_month y m + d.

Definition _DI400Y : Z := 146097.
Definition _DI100Y : Z := 36524.
Definition _DI4Y : Z := 1461.

(** [_ord2ymd]: ordinal to (year, month, day), 1 = 0001-01-01. *)
Definition _ord2ymd (n : Z) : date :=
  let n := n - 1 in
  let n400 := n / _DI400Y in
  let n := n mod _DI400Y in
  let y := n400 * 400 + 1 in
  let n100 := n / _DI100Y in
  let n := n mod _DI100Y in
  let n4 := n / _DI4Y in
  let n := n mod _DI4Y in
  let n1 := n / 365 in
  let n := n mod 365 in
  let y := y + (n100 * 100 + n4 * 4 + n1) in
  if (n1 =? 4) || (n100 =? 4) then mkdate (y - 1) 12 31
  else
    let leapyear := (n1 =? 3) && (negb (n4 =? 24) || (n100 =? 3)) in
    let m := Z.shiftr (n + 50) 5 in
    let preceding := table _DAYS_BEFORE_MONTH m + b2z ((2 <? m) && leapyear) in
    if n <? preceding then
      let m' := m - 1 in
      let preceding' :=
        preceding - (table _DAYS_IN_MONTH m' + b2z ((m' =? 2) && leapyear)) in
      mkdate y m' (n - preceding' + 1)
    else mkdate y m (n - preceding + 1).

(** [_check_date_fields]: what the constructor [date(y, m, d)] accepts. *)
Definition valid_date (d : date) : bool :=
  (MINYEAR <=? year d) && (year d <=? MAXYEAR)
  && (1 <=? month d) && (month d <=? 12)
  && (1 <=? day d) && (day d <=? _days_in_month (year d) (month d)).

(** [date(y, m, d)]: ValueError outside the accepted fields. *)
Definition make_date (y m d : Z) : result date :=
  if valid_date (mkdate y m d) then Ok (mkdate y m d) else Raise ValueError.

Definition toordinal (d : date) : Z := _ymd2ord (year d) (month d) (day d).
Definition fromordinal (n : Z) : date := _ord2ymd n.

(** [date.max.toordinal()], the ordinal of 9999-12-31. *)
Definition _MAXORDINAL : Z := 3652059.

(** [date.weekday()]: Monday is 0, Sunday is 6. *)
Definition weekday (d : date) : Z := (toordinal d + 6) mod 7.

(** [date + timedelta(days=k)]; [date - timedelta(days=k)] is
    [date + timedelta(days=-k)].  OverflowError when the result is not a
    representable date. *)
Definition add_days (d : date) (k : Z) : result date :=
  let o := toordinal d + k in
  if (0 <? o) && (o <=? _MAXORDINAL) then Ok (fromordinal o)
  else Raise OverflowError.

Definition sub_days (d : date) (k : Z) : result date := add_days d (- k).

(** Comparison of dates: the tuples (year, month, day), lexicographically. *)
Definition date_cmp (a b : date) : comparison :=
  match year a ?= year b with
  | Eq => match month a ?= month b with
          | Eq => day a ?= day b
          | c => c
          end
  | c => c
  end.

Definition date_leb (a b : date) : bool :=
  match date_cmp a b with Gt => false | _ => true end.

End PyDate.
Import PyDate.


(* ===================================================================== *)
(** * [datetime.datetime.strptime] for the directives the bot uses *)
(* ===================================================================== *)

Module Strptime.

(** A character class of a regular expression: an inclusive range of
    character codes.  Strings are ASCII text, so [\d] is [0-9]. *)
Record cclass : Type := Range { lo : ascii; hi : ascii }.

Definition code (c : ascii) : Z := Z.of_N (N_of_ascii c).

Definition in_class (c : ascii) (k : cclass) : bool :=
  (code (lo k) <=? code c) && (code c <=? code (hi k)).

Definition one (c : ascii) : cclass := Range c c.
Definition digit : cclass := Range "0" "9".

(** One item of a compiled format: a literal character, or the named
    group of a directive with its alternatives in the order of the
    regular expression (leftmost alternative first). *)
Inductive re_item : Type :=
| Lit (c : ascii)
| Group (name : ascii) (alts : list (list cclass)).

(** [TimeRE.__init__]: the regular expressions of [%d], [%m] and [%Y]:
    - d: (3[0-1]|[1-2]\d|0[1-9]|[1-9]| [1-9])
    - m: (1[0-2]|0[1-9]|[1-9])
    - Y: (\d\d\d\d)
    Any other directive is outside this model and reported as the
    ValueError of a bad directive. *)
Definition directive (c : ascii) : result (list (list cclass)) :=
  if Ascii.eqb c "d" then
    Ok [ [one "3"; Range "0" "1"]; [Range "1" "2"; digit]; [one "0"; Range "1" "9"];
         [Range "1" "9"]; [one " "; Range "1" "9"] ]
  else if Ascii.eqb c "m" then
    Ok [ [one "1"; Range "0" "2"]; [one "0"; Range "1" "9"]; [Range "1" "9"] ]
  else if Ascii.eqb c "Y" then
    Ok [ [digit; digit; digit; digit] ]
  else Raise ValueError.

(** [TimeRE.pattern]: every [%x] becomes the group of directive [x], every
    other character stands for itself (the bot's formats hold no blank and
    no letter outside directives). *)
Fixpoint pattern (fmt : string) : result (list re_item) :=
  match fmt with
  | EmptyString => Ok []
  | String c rest =>
      if Ascii.eqb c "%" then
        match rest with
        | EmptyString => Raise ValueError
        | String x rest' =>
            rbind (directive x) (fun g =>
            rbind (pattern rest') (fun r => Ok (Group x g :: r)))
        end
      else rbind (pattern rest) (fun r => Ok (Lit c :: r))
  end.

(** Match the classes of one alternative at the head of [s]: the text
    consumed and the rest. *)
Fixpoint match_classes (ks : list cclass) (s : string) : option (string * string) :=
  match ks with
  | [] => Some (EmptyString, s)
  | k :: ks' =>
      match s with
      | EmptyString => None
      | String c s' =>
          if in_class c k then
            match match_classes ks' s' with
            | Some (cap, r) => Some (String c cap, r)
            | None => None
            end
          else None
      end
  end.

Fixpoint first_some {A B : Type} (f : A -> option B) (l : list A) : option B :=
  match l with
  | [] => None
  | a :: l' => match f a with Some b => Some b | None => first_some f l' end
  end.

(** [re.match]: a backtracking match at the start of [s]; alternatives are
    tried left to right and the first way to match the whole expression
    wins.  The result is the groups and the unmatched rest of [s]. *)
Fixpoint re_match (r : list re_item) (s : string)
  : option (list (ascii * string) * string) :=
  match r with
  | [] => Some ([], s)
  | Lit c :: r' =>
      match s with
      | EmptyString => None
      | String c' s' => if Ascii.eqb c c' then re_match r' s' else None
      end
  | Group x alts :: r' =>
      first_some (fun alt =>
        match match_classes alt s with
        | None => None
        | Some (cap, rest) =>
            match re_match r' rest with
            | None => None
            | Some (caps, fin) => Some ((x, cap) :: caps, fin)
            end
        end) alts
  end.

(** [int(text)] on the text of a group: decimal digits, after the blank
    that the day directive allows. *)
Fixpoint int_of (s : string) (acc : Z) : Z :=
  match s with
  | EmptyString => acc
  | String c s' =>
      if in_class c digit then int_of s' (10 * acc + (code c - 48))
      else int_of s' acc
  end.

Fixpoint group (x : ascii) (caps : list (ascii * string)) : option string :=
  match caps with
  | [] => None
  | (y, t) :: caps' => if Ascii.eqb x y then Some t else group x caps'
  end.

Definition field (x : ascii) (default : Z) (caps : list (ascii * string)) : Z :=
  match group x caps with
  | Some t => int_of t 0
  | None => default
  end.

(** [datetime.strptime(data_string, fmt).date()]: ValueError when the text
    does not match, when text remains after the match, or when the fields
    are not a date. *)
Definition strptime (data_string fmt : string) : result date :=
  rbind (pattern fmt) (fun r =>
  match re_match r data_string with
  | None => Raise ValueError
  | Some (caps, rest) =>
      match rest with
      | String _ _ => Raise ValueError
      | EmptyString =>
          make_date (field "Y" 1900 caps) (field "m" 1 caps) (field "d" 1 caps)
      end
  end).

End Strptime.

(* ===================================================================== *)
(** * Python values, floats and dictionaries *)
(* ===================================================================== *)

(** The values found in worksheet cells and in the totals: [str], [int]
    and [float]. *)
Inductive pyval : Type :=
| VStr (s : string)
| VInt (z : Z)
| VFloat (f : float).

(** [float(n)] for an [int]: the nearest binary64, ties to even;
    OverflowError when it is out of range. *)
Definition float_of_int (z : Z) : result float :=
  match binary_normalize prec emax z 0 false with
  | S754_infinity _ => Raise OverflowError
  | sf => Ok (SF2Prim sf)
  end.

(** [float(s)] for a [str] is Python's own parser of float literals; the
    development is parametric in it.  [None] is its ValueError. *)
Class FloatSyntax : Type := float_of_str : string -> option float.

(** A [FloatSyntax] that reads plain digit strings of at most fifteen
    digits, where it agrees with Python; used to run the examples. *)
Fixpoint all_digits (s : string) : bool :=
  match s with
  | EmptyString => true
  | String c s' => Strptime.in_class c Strptime.digit && all_digits s'
  end.

Definition digits_float_of_str : FloatSyntax := fun s =>
  if all_digits s && (0 <? Z.of_nat (String.length s)) && (Z.of_nat (String.length s) <=? 15)
  then match float_of_int (Strptime.int_of s 0) with Ok f => Some f | Raise _ => None end
  else None.

(** A row of [get_all_records()]: a dictionary from column name to value. *)
Abbreviation row := (gmap string pyval).

Section Values.
Context {fs : FloatSyntax}.

(** The builtin [float(v)]. *)
Definition py_float (v : pyval) : result float :=
  match v with
  | VStr s => match float_of_str s with Some f => Ok f | None => Raise ValueError end
  | VInt z => float_of_int z
  | VFloat f => Ok f
  end.

(** [a + b] and [a - b] on values; an [int] operand of a [float] is
    converted first. *)
Definition py_add (a b : pyval) : result pyval :=
  match a, b with
  | VInt x, VInt y => Ok (VInt (x + y))
  | VInt x, VFloat g => rbind (float_of_int x) (fun f => Ok (VFloat (f + g)%float))
  | VFloat f, VInt y => rbind (float_of_int y) (fun g => Ok (VFloat (f + g)%float))
  | VFloat f, VFloat g => Ok (VFloat (f + g)%float)
  | VStr s, VStr t => Ok (VStr (s ++ t)%string)
  | _, _ => Raise TypeError
  end.

Definition py_sub (a b : pyval) : result pyval :=
  match a, b with
  | VInt x, VInt y => Ok (VInt (x - y))
  | VInt x, VFloat g => rbind (float_of_int x) (fun f => Ok (VFloat (f - g)%float))
  | VFloat f, VInt y => rbind (float_of_int y) (fun g => Ok (VFloat (f - g)%float))
  | VFloat f, VFloat g => Ok (VFloat (f - g)%float)
  | _, _ => Raise TypeError
  end.

(** [d[k]]: KeyError when the key is missing. *)
Definition py_getitem (d : row) (k : string) : result pyval :=
  match d !! k with
  | Some v => Ok v
  | None => Raise KeyError
  end.

(** [l[i]] on a list: IndexError when out of range. *)
Definition py_index {A : Type} (l : list A) (i : nat) : result A :=
  match l !! i with
  | Some a => Ok a
  | None => Raise IndexError
  end.

End Values.

(* ===================================================================== *)
(** * The world of the bot: worksheets, chat, log *)
(* ===================================================================== *)

(** A worksheet: its header row and the rows below it. *)
Record worksheet : Type := mksheet { header : list string; body : list (list pyval) }.

(** [dict(zip(keys, values))]: a later duplicate key overrides. *)
Definition dict_zip (keys : list string) (values : list pyval) : row :=
  foldl (fun (m : row) kv => <[fst kv := snd kv]> m) ∅ (zip keys values).

(** [worksheet.get_all_records()]: one dictionary per row under the header.
    The case modelled is a header of distinct names over rows as long as
    the header; what the client itself raises or pads is outside the
    model, as every failure of the store is. *)
Definition get_all_records (ws : worksheet) : list row :=
  map (dict_zip (header ws)) (body ws).

(** [worksheet.append_row(values)]. *)
Definition append_row (ws : worksheet) (values : list pyval) : worksheet :=
  mksheet (header ws) (body ws ++ [values]).

(** The texts the bot sends, by their parts (the rendering of numbers into
    the message is not modelled). *)
Inductive text : Type :=
| Welcome
| ExpenseLogged (amount : float) (category notes : string)
| SpendUsage
| EarningLogged (amount : float) (notes : string)
| EarnUsage
| WeeklySummary (week_start week_end : date) (earnings expenses balance : pyval)
| SummaryError.

(** The calls of [logging.error]. *)
Inductive log_entry : Type :=
| SkippingEarningsRow (r : row) (e : exn)
| SkippingExpensesRow (r : row) (e : exn)
| ErrorIn (where_ : string) (e : exn).

(** The module-level configuration read from the environment. *)
Record config : Type := mkconfig {
  TELEGRAM_TOKEN : option string;
  SHEET_ID : option string;
  GOOGLE_CREDENTIALS : option string;
  CHAT_ID : option string
}.

(** Everything the handlers read and write: the two worksheets, the replies
    sent with [update.message.reply_text], the messages sent with
    [app.bot.send_message] (recipient and text) and the error log. *)
Record world : Type := mkworld {
  expenses_sheet : worksheet;
  earnings_sheet : worksheet;
  replies : list text;
  sent : list (option string * text);
  errlog : list log_entry
}.

(** Computations that read and write the world and may raise. A raised
    exception keeps the writes made before it. *)
Definition M (A : Type) : Type := world -> result A * world.

Definition ret {A : Type} (a : A) : M A := fun w => (Ok a, w).

Definition raise {A : Type} (e : exn) : M A := fun w => (Raise e, w).

Definition bind {A B : Type} (m : M A) (k : A -> M B) : M B :=
  fun w => match m w with
           | (Ok a, w') => k a w'
           | (Raise e, w') => (Raise e, w')
           end.

(** [try: m except Exception as e: h e]. *)
Definition try_except {A : Type} (m : M A) (h : exn -> M A) : M A :=
  fun w => match m w with
           | (Ok a, w') => (Ok a, w')
           | (Raise e, w') => h e w'
           end.

Definition lift {A : Type} (r : result A) : M A := fun w => (r, w).

Definition gets {A : Type} (f : world -> A) : M A := fun w => (Ok (f w), w).

Definition modify (f : world -> world) : M unit := fun w => (Ok tt, f w).

Notation "x <- m ;; k" := (bind m (fun x => k))
  (at level 100, m at next level, right associativity).
Notation "m ;;; k" := (bind m (fun _ => k))
  (at level 100, right associativity).

Definition logging_error (l : log_entry) : M unit :=
  modify (fun w => mkworld (expenses_sheet w) (earnings_sheet w) (replies w) (sent w)
                           (errlog w ++ [l])).

Definition reply_text (t : text) : M unit :=
  modify (fun w => mkworld (expenses_sheet w) (earnings_sheet w) (replies w ++ [t])
                           (sent w) (errlog w)).

Definition send_message (chat_id : option string) (t : text) : M unit :=
  modify (fun w => mkworld (expenses_sheet w) (earnings_sheet w) (replies w)
                           (sent w ++ [(chat_id, t)]) (errlog w)).

Definition expenses_append_row (values : list pyval) : M unit :=
  modify (fun w => mkworld (append_row (expenses_sheet w) values) (earnings_sheet w)
                           (replies w) (sent w) (errlog w)).

Definition earnings_append_row (values : list pyval) : M unit :=
  modify (fun w => mkworld (expenses_sheet w) (append_row (earnings_sheet w) values)
                           (replies w) (sent w) (errlog w)).

(** [for x in l: acc = body acc x], left to right. *)
Fixpoint for_each {A S : Type} (l : list A) (body : S -> A -> M S) (acc : S) : M S :=
  match l with
  | [] => ret acc
  | x :: l' => acc' <- body acc x ;; for_each l' body acc'
  end.

(* ===================================================================== *)
(** * [bot.py] *)
(* ===================================================================== *)

(** ** CONFIG: ENV VARIABLES (lines 24-30) *)

(** [not x] for an optional string: [None] and the empty string are falsy. *)
Definition py_not (x : option string) : bool :=
  match x with
  | None => true
  | Some s => String.eqb s ""
  end.

(** The module-level reads of [os.getenv] and the check that follows. *)
Definition load_config (environ : gmap string string) : result config :=
  let token := environ !! "TELEGRAM_TOKEN" in
  let sheet := environ !! "SHEET_ID" in
  let creds := environ !! "GOOGLE_CREDENTIALS" in
  let chat := environ !! "CHAT_ID" in
  if py_not token || py_not sheet || py_not creds
  then Raise ValueError
  else Ok (mkconfig token sheet creds chat).

(** Lines 35-44 open the spreadsheet with the credentials: an outside
    service, taken as a function from the configuration to the two
    worksheets or to the exception it raises.  [startup] is the whole of the
    module-level code: it yields the world in which commands are served. *)
Definition startup (google : config -> result (worksheet * worksheet))
    (environ : gmap string string) : result (config * world) :=
  rbind (load_config environ) (fun c =>
  rbind (google c) (fun sheets =>
  Ok (c, mkworld (fst sheets) (snd sheets) [] [] []))).

(** ** HELPERS *)

Definition get_week_range (d : date) : result (date * date) :=
  rbind (sub_days d (weekday d)) (fun start =>
  rbind (add_days start 6) (fun end_ =>
  Ok (start, end_))).

(** [datetime.datetime.strptime(date_str, fmt).date()] on a cell value:
    TypeError unless it is a string. *)
Definition strptime_date (date_str : pyval) (fmt : string) : result date :=
  match date_str with
  | VStr s => Strptime.strptime s fmt
  | _ => Raise TypeError
  end.

Definition date_formats : list string := ["%Y-%m-%d"; "%d/%m/%Y"; "%m/%d/%Y"].

(** The loop of [safe_parse_date]: return at the first format that parses,
    [continue] on any exception, raise ValueError after the last one. *)
Fixpoint try_formats (date_str : pyval) (fmts : list string) : result date :=
  match fmts with
  | [] => Raise ValueError
  | fmt :: rest =>
      match strptime_date date_str fmt with
      | Ok d => Ok d
      | Raise _ => try_formats date_str rest
      end
  end.

Definition safe_parse_date (date_str : pyval) : result date :=
  try_formats date_str date_formats.

Section Bot.
Context {fs : FloatSyntax}.

(** The body of one loop of [calculate_summary]: the [try] block and its
    handler, which logs and goes on with the total unchanged. *)
Definition add_row (skipping : row -> exn -> log_entry) (week_start week_end : date)
    (total : pyval) (r : row) : M pyval :=
  try_except
    (row_date <- lift (rbind (py_getitem r "Date") safe_parse_date) ;;
     if date_leb week_start row_date && date_leb row_date week_end
     then lift (rbind (rbind (py_getitem r "Amount") py_float) (fun a =>
                py_add total (VFloat a)))
     else ret total)
    (fun e => logging_error (skipping r e) ;;; ret total).

Definition calculate_summary (week_start week_end : date) : M (pyval * pyval * pyval) :=
  earnings_data <- gets (fun w => get_all_records (earnings_sheet w)) ;;
  total_earnings <-
    for_each earnings_data (add_row SkippingEarningsRow week_start week_end) (VInt 0) ;;
  expenses_data <- gets (fun w => get_all_records (expenses_sheet w)) ;;
  total_expenses <-
    for_each expenses_data (add_row SkippingExpensesRow week_start week_end) (VInt 0) ;;
  balance <- lift (py_sub total_earnings total_expenses) ;;
  ret (total_earnings, total_expenses, balance).

(** ** COMMANDS *)

(** [now.strftime("%Y-%m-%d")] and [now.strftime("%A")], for the date part
    of [datetime.datetime.now()]. *)
Definition two_digits (n : Z) : string :=
  if n <? 10 then ("0" ++ pretty n)%string else pretty n.

Definition strftime_iso (d : date) : string :=
  (pretty (year d) ++ "-" ++ two_digits (month d) ++ "-" ++ two_digits (day d))%string.

Definition day_names : list string :=
  ["Monday"; "Tuesday"; "Wednesday"; "Thursday"; "Friday"; "Saturday"; "Sunday"].

Definition strftime_A (d : date) : string :=
  nth (Z.to_nat (weekday d)) day_names ""%string.

(** [" ".join(l)]. *)
Definition join_blank (l : list string) : string := String.concat " " l.

Definition start : M unit := reply_text Welcome.

Definition spend (args : list string) (now : date) : M unit :=
  try_except
    (amount <- lift (rbind (py_index args 0) (fun a => py_float (VStr a))) ;;
     category <- lift (py_index args 1) ;;
     let notes := if (2 <? Z.of_nat (length args)) then join_blank (drop 2 args)
                  else ""%string in
     let date_ := strftime_iso now in
     let day_ := strftime_A now in
     expenses_append_row [VStr date_; VStr day_; VStr category; VFloat amount; VStr notes] ;;;
     reply_text (ExpenseLogged amount category notes))
    (fun e => logging_error (ErrorIn "/spend" e) ;;; reply_text SpendUsage).

Definition earn (args : list string) (now : date) : M unit :=
  try_except
    (amount <- lift (rbind (py_index args 0) (fun a => py_float (VStr a))) ;;
     let notes := if (1 <? Z.of_nat (length args)) then join_blank (drop 1 args)
                  else ""%string in
     let date_ := strftime_iso now in
     let day_ := strftime_A now in
     earnings_append_row [VStr date_; VStr day_; VFloat amount; VStr notes] ;;;
     reply_text (EarningLogged amount notes))
    (fun e => logging_error (ErrorIn "/earn" e) ;;; reply_text EarnUsage).

Definition summary (today : date) : M unit :=
  try_except
    (week <- lift (get_week_range today) ;;
     let '(week_start, week_end) := week in
     totals <- calculate_summary week_start week_end ;;
     let '(earnings, expenses, balance) := totals in
     reply_text (WeeklySummary week_start week_end earnings expenses balance))
    (fun e => logging_error (ErrorIn "/summary" e) ;;; reply_text SummaryError).

(** ** AUTO SUMMARY *)

(** [today] is what [datetime.date.today()] returns when the job runs. *)
Definition send_weekly_summary (cfg : config) (today : date) : M unit :=
  try_except
    (last_week_end <- lift (sub_days today 1) ;;
     week <- lift (get_week_range last_week_end) ;;
     let '(week_start, week_end) := week in
     totals <- calculate_summary week_start week_end ;;
     let '(earnings, expenses, balance) := totals in
     send_message (CHAT_ID cfg)
       (WeeklySummary week_start week_end earnings expenses balance))
    (fun e => logging_error (ErrorIn "auto-summary" e)).

End Bot.

(** ** MAIN: the trigger of the scheduled job *)

(** [CronTrigger(day_of_week="mon", hour=10, minute=0)]: the job fires on
    the dates whose weekday is Monday. *)
Definition trigger_day_of_week : Z := 0.

Definition fires_on (t : date) : bool := weekday t =? trigger_day_of_week.

(* ===================================================================== *)
(** * Notions used to state the properties *)
(* ===================================================================== *)

Section Notions.
Context {fs : FloatSyntax}.

(** The parsed date of a row lies in the closed span. *)
Definition row_in_span (week_start week_end : date) (r : row) : bool :=
  match rbind (py_getitem r "Date") safe_parse_date with
  | Ok d => date_leb week_start d && date_leb d week_end
  | Raise _ => false
  end.

(** The amount of a row, when its Amount cell is a number. *)
Definition row_amount (r : row) : option float :=
  match rbind (py_getitem r "Amount") py_float with
  | Ok a => Some a
  | Raise _ => None
  end.

(** The running total of a list of amounts: the [int] 0 when the list is
    empty, else the amounts added from left to right to 0. *)
Definition running_total (amounts : list float) : pyval :=
  match amounts with
  | [] => VInt 0
  | a :: rest => VFloat (fold_left PrimFloat.add rest (0 + a)%float)
  end.

(** The total of a row-set over a span. *)
Definition span_total (week_start week_end : date) (rows : list row) : pyval :=
  running_total (omap row_amount (List.filter (row_in_span week_start week_end) rows)).

(** A row that the aggregator cannot use: its date does not parse or its
    amount is not a number. *)
Definition malformed_row (r : row) : Prop :=
  is_ok (rbind (py_getitem r "Date") safe_parse_date) = false \/
  is_ok (rbind (py_getitem r "Amount") py_float) = false.

(** The arguments of [/spend] with the amount missing, the category
    missing, or an amount that is not a number. *)
Definition malformed_spend (args : list string) : Prop :=
  args = [] \/ (exists a, args = [a]) \/
  (exists a rest, args = a :: rest /\ float_of_str a = None).

(** What one row does to the total: [Some a] when it adds the amount [a],
    [None] when it is skipped or lies outside the span. *)
Definition contribution (week_start week_end : date) (r : row) : option float :=
  if row_in_span week_start week_end r then row_amount r else None.

(** The total after one row, for a total that is the [int] 0 or a float
    ([a_total]), as the totals of [calculate_summary] always are. *)
Definition add_to (total : pyval) (a : option float) : pyval :=
  match a, total with
  | Some a, VFloat f => VFloat (f + a)%float
  | Some a, _ => VFloat (0 + a)%float
  | None, _ => total
  end.

Definition a_total (t : pyval) : Prop := t = VInt 0 \/ exists f, t = VFloat f.

End Notions.

(** The world with other rows in one of its worksheets, or more log. *)
Definition with_earnings (rows : list (list pyval)) (w : world) : world :=
  mkworld (expenses_sheet w) (mksheet (header (earnings_sheet w)) rows)
          (replies w) (sent w) (errlog w).

Definition with_expenses (rows : list (list pyval)) (w : world) : world :=
  mkworld (mksheet (header (expenses_sheet w)) rows) (earnings_sheet w)
          (replies w) (sent w) (errlog w).

Definition with_log (l : list log_entry) (w : world) : world :=
  mkworld (expenses_sheet w) (earnings_sheet w) (replies w) (sent w) (errlog w ++ l).

(** The last date whose week ends within [date.max]: 9999-12-26, a Sunday. *)
Definition last_full_week_day : date := mkdate 9999 12 26.

(** The first date, [date.min]. *)
Definition date_min : date := mkdate 1 1 1.

(** Format number [i] of [fmts] parses [s] to [d] and no earlier format
    parses [s]. *)
Definition first_parse (s : string) (fmts : list string) (i : nat) (d : date) : Prop :=
  exists fmt, fmts !! i = Some fmt /\ Strptime.strptime s fmt = Ok d /\
    forall j fmt', (j < i)%nat -> fmts !! j = Some fmt' ->
                   is_ok (Strptime.strptime s fmt') = false.

(** The parts of the result of [calculate_summary]. *)
Definition summary_earnings (r : result (pyval * pyval * pyval)) : option pyval :=
  match r with Ok (e, _, _) => Some e | Raise _ => None end.

Definition summary_expenses (r : result (pyval * pyval * pyval)) : option pyval :=
  match r with Ok (_, x, _) => Some x | Raise _ => None end.

(** Worlds and configurations to run the handlers on. *)
Definition empty_world : world :=
  mkworld (mksheet ["Date"; "Day"; "Category"; "Amount"; "Notes"] [])
          (mksheet ["Date"; "Day"; "Amount"; "Notes"] []) [] [] [].

Definition june_world : world :=
  mkworld
    (mksheet ["Date"; "Day"; "Category"; "Amount"; "Notes"]
       [ [VStr "2024-06-04"; VStr "Tuesday"; VStr "food"; VInt 50; VStr ""] ])
    (mksheet ["Date"; "Day"; "Amount"; "Notes"]
       [ [VStr "2024-06-03"; VStr "Monday"; VInt 100; VStr ""];
         [VStr "2024-06-09"; VStr "Sunday"; VInt 200; VStr ""] ])
    [] [] [].

Definition full_config : config :=
  mkconfig (Some "token") (Some "sheet") (Some "{}") (Some "42").

(** An environment with every variable but CHAT_ID. *)
Definition environ_without_chat_id : gmap string string :=
  {[ "TELEGRAM_TOKEN" := "token"; "SHEET_ID" := "sheet"; "GOOGLE_CREDENTIALS" := "{}" ]}.

(** A spreadsheet service that opens two empty worksheets. *)
Definition empty_google (c : config) : result (worksheet * worksheet) :=
  Ok (expenses_sheet empty_world, earnings_sheet empty_world).

(* ===================================================================== *)
(** * Further notions: the text of dates, lengths of matches, the log *)
(* ===================================================================== *)

(** The compiled form of the ISO format. *)
Definition alts_Y : list (list Strptime.cclass) :=
  [ [Strptime.digit; Strptime.digit; Strptime.digit; Strptime.digit] ].
Definition alts_m : list (list Strptime.cclass) :=
  [ [Strptime.one "1"; Strptime.Range "0" "2"]; [Strptime.one "0"; Strptime.Range "1" "9"];
    [Strptime.Range "1" "9"] ].
Definition alts_d : list (list Strptime.cclass) :=
  [ [Strptime.one "3"; Strptime.Range "0" "1"]; [Strptime.Range "1" "2"; Strptime.digit];
    [Strptime.one "0"; Strptime.Range "1" "9"]; [Strptime.Range "1" "9"];
    [Strptime.one " "; Strptime.Range "1" "9"] ].

Definition day_text_ok (d : Z) : bool :=
  match Strptime.re_match [Strptime.Group "d" alts_d] (two_digits d) with
  | Some ([(x, t)], EmptyString) =>
      Ascii.eqb x "d" && String.eqb t (two_digits d) && (Strptime.int_of t 0 =? d)
  | _ => false
  end.

(** A group followed by a literal, with the rest of the match as a
    continuation. *)
Definition lit_then (c : ascii) (k : string -> option (list (ascii * string) * string))
    (s : string) : option (list (ascii * string) * string) :=
  match s with
  | EmptyString => None
  | String c' s' => if Ascii.eqb c c' then k s' else None
  end.

Definition group_then (x : ascii) (alts : list (list Strptime.cclass))
    (k : string -> option (list (ascii * string) * string))
    (s : string) : option (list (ascii * string) * string) :=
  Strptime.first_some (fun alt =>
    match Strptime.match_classes alt s with
    | None => None
    | Some (cap, rest) =>
        match k rest with
        | None => None
        | Some (caps, fin) => Some ((x, cap) :: caps, fin)
        end
    end) alts.

(** A text without the separator of the slash formats, and alternatives
    none of whose classes holds it. *)
Fixpoint slash_free (t : string) : bool :=
  match t with
  | EmptyString => true
  | String c t' => negb (Ascii.eqb c "/") && slash_free t'
  end.

Definition avoid_slash (alts : list (list Strptime.cclass)) : bool :=
  forallb (forallb (fun k => negb (Strptime.in_class "/" k))) alts.

(** The least and the greatest number of characters that a list of
    alternatives, and a compiled format, can match. *)
Fixpoint shortest (alts : list (list Strptime.cclass)) : nat :=
  match alts with
  | [] => 0
  | [a] => length a
  | a :: rest => Nat.min (length a) (shortest rest)
  end.

Definition longest (alts : list (list Strptime.cclass)) : nat :=
  list_max (map (@length Strptime.cclass) alts).

Fixpoint min_len (r : list Strptime.re_item) : nat :=
  match r with
  | [] => 0
  | Strptime.Lit _ :: r' => S (min_len r')
  | Strptime.Group _ alts :: r' => shortest alts + min_len r'
  end.

Fixpoint max_len (r : list Strptime.re_item) : nat :=
  match r with
  | [] => 0
  | Strptime.Lit _ :: r' => S (max_len r')
  | Strptime.Group _ alts :: r' => longest alts + max_len r'
  end.

(** The column order that [spend] and [earn] write. *)
Definition expenses_header : list string := ["Date"; "Day"; "Category"; "Amount"; "Notes"].
Definition earnings_header : list string := ["Date"; "Day"; "Amount"; "Notes"].

Section LogNotions.
Context {fs : FloatSyntax}.

(** The exception that makes the aggregator skip a row, if any: raised by
    the date, or, for a row in the span, by the amount. *)
Definition row_error (week_start week_end : date) (r : row) : option exn :=
  match rbind (py_getitem r "Date") safe_parse_date with
  | Raise e => Some e
  | Ok d =>
      if date_leb week_start d && date_leb d week_end then
        match rbind (py_getitem r "Amount") py_float with
        | Raise e => Some e
        | Ok _ => None
        end
      else None
  end.

(** The log entries of one loop of [calculate_summary]. *)
Definition skipped_log (skipping : row -> exn -> log_entry) (week_start week_end : date)
    (rows : list row) : list log_entry :=
  omap (fun r => option_map (skipping r) (row_error week_start week_end r)) rows.

End LogNotions.

Section AmountNotions.
Context {fs : FloatSyntax}.

(** The amounts that a row-set adds to its total over a span, in row
    order. *)
Definition span_amounts (week_start week_end : date) (rows : list row) : list float :=
  omap row_amount (List.filter (row_in_span week_start week_end) rows).

(** The log entry of one row, if it is skipped. *)
Definition skip_entry (skipping : row -> exn -> log_entry) (week_start week_end : date)
    (r : row) : list log_entry :=
  match row_error week_start week_end r with
  | Some e => [skipping r e]
  | None => []
  end.

End AmountNotions.

(** The integer that a total stands for, when it stands for one: an [int]
    itself, a finite float by its sign, mantissa and exponent. *)
Definition exact_int (v : pyval) : option Z :=
  match v with
  | VInt z => Some z
  | VFloat f =>
      match Prim2SF f with
      | S754_zero _ => Some 0
      | S754_finite s m e =>
          let sign := if s then -1 else 1 in
          if 0 <=? e then Some (sign * Zpos m * 2 ^ e)
          else if Zpos m mod 2 ^ (- e) =? 0 then Some (sign * (Zpos m / 2 ^ (- e)))
          else None
      | _ => None
      end
  | VStr _ => None
  end.

(** One earning of 2^54 and one expense of 1 in the first week of June
    2024. *)
Definition rounding_world : world :=
  mkworld
    (mksheet expenses_header
       [ [VStr "2024-06-04"; VStr "Tuesday"; VStr "food"; VInt 1; VStr ""] ])
    (mksheet earnings_header
       [ [VStr "2024-06-03"; VStr "Monday"; VInt 18014398509481984; VStr ""] ])
    [] [] [].

(** Auxiliary definitions for the calendar proofs. *)

(** The tail of [_ord2ymd]: month and day from the day offset [n] within
    the year. *)
Definition month_day (leapyear : bool) (n : Z) : Z * Z :=
  let m := Z.shiftr (n + 50) 5 in
  let preceding := table _DAYS_BEFORE_MONTH m + b2z ((2 <? m) && leapyear) in
  if n <? preceding then
    let m' := m - 1 in
    let preceding' :=
      preceding - (table _DAYS_IN_MONTH m' + b2z ((m' =? 2) && leapyear)) in
    (m', n - preceding' + 1)
  else (m, n - preceding + 1).

Definition dim_of (leap : bool) (m : Z) : Z :=
  if (m =? 2) && leap then 29 else table _DAYS_IN_MONTH m.

Definition dbm_of (leap : bool) (m : Z) : Z :=
  table _DAYS_BEFORE_MONTH m + b2z ((2 <? m) && leap).

Definition month_day_ok (leap : bool) (n : Z) : bool :=
  let '(m, d) := month_day leap n in
  (1 <=? m) && (m <=? 12) && (1 <=? d) && (d <=? dim_of leap m)
  && (dbm_of leap m + d =? n + 1).

(* ===================================================================== *)
(** * Properties of [datetime.date] *)
(* ===================================================================== *)

Module CalendarFacts.

Lemma month_day_table :
  forallb (fun k => month_day_ok false (Z.of_nat k) && month_day_ok true (Z.of_nat k))
          (seq 0 365) = true.
Proof. vm_compute. reflexivity. Qed.

Lemma month_day_spec leap n :
  0 <= n < 365 ->
  let '(m, d) := month_day leap n in
  1 <= m <= 12 /\ 1 <= d <= dim_of leap m /\ dbm_of leap m + d = n + 1.
Proof.
  intros Hn.
  pose proof month_day_table as T.
  rewrite forallb_forall in T.
  specialize (T (Z.to_nat n)).
  rewrite Z2Nat.id in T by lia.
  assert (Hin : In (Z.to_nat n) (seq 0 365)) by (apply in_seq; lia).
  apply T in Hin. apply andb_prop in Hin. destruct Hin as [Hf Ht].
  assert (H : month_day_ok leap n = true) by (destruct leap; assumption).
  unfold month_day_ok in H. destruct (month_day leap n) as [m d].
  repeat (apply andb_prop in H; destruct H as [H ?]).
  repeat match goal with
         | h : (_ <=? _) = true |- _ => apply Z.leb_le in h
         | h : (_ =? _) = true |- _ => apply Z.eqb_eq in h
         end.
  lia.
Qed.

Lemma is_leap_decomp n400 n100 n4 n1 :
  0 <= n400 -> 0 <= n100 <= 3 -> 0 <= n4 <= 24 -> 0 <= n1 <= 3 ->
  _is_leap (n400 * 400 + 1 + (n100 * 100 + n4 * 4 + n1))
  = (n1 =? 3) && (negb (n4 =? 24) || (n100 =? 3)).
Proof.
  intros. unfold _is_leap.
  repeat match goal with |- context [ ?a =? ?b ] => destruct (Z.eqb_spec a b) end;
    simpl; try reflexivity; exfalso;
    Z.div_mod_to_equations; lia.
Qed.

Lemma days_before_year_decomp n400 n100 n4 n1 :
  0 <= n400 -> 0 <= n100 <= 3 -> 0 <= n4 <= 24 -> 0 <= n1 <= 3 ->
  _days_before_year (n400 * 400 + 1 + (n100 * 100 + n4 * 4 + n1))
  = 146097 * n400 + 36524 * n100 + 1461 * n4 + 365 * n1.
Proof.
  intros. unfold _days_before_year. cbv zeta.
  Z.div_mod_to_equations. lia.
Qed.



Lemma ord2ymd_fields n :
  1 <= n ->
  exists n400 n100 n4 n1 r,
    n - 1 = 146097 * n400 + 36524 * n100 + 1461 * n4 + 365 * n1 + r /\
    0 <= n400 /\ 0 <= n100 <= 4 /\ 0 <= n4 <= 24 /\ 0 <= n1 <= 4 /\ 0 <= r < 365 /\
    (n100 = 4 -> n4 = 0 /\ n1 = 0 /\ r = 0) /\
    (n1 = 4 -> r = 0 /\ (n100 <> 4 -> n4 <= 23)) /\
    _ord2ymd n =
      let y := n400 * 400 + 1 + (n100 * 100 + n4 * 4 + n1) in
      if (n1 =? 4) || (n100 =? 4) then mkdate (y - 1) 12 31
      else
        let leap := (n1 =? 3) && (negb (n4 =? 24) || (n100 =? 3)) in
        mkdate y (fst (month_day leap r)) (snd (month_day leap r)).
Proof.
  intros Hn.
  exists ((n - 1) / _DI400Y),
         ((n - 1) mod _DI400Y / _DI100Y),
         ((n - 1) mod _DI400Y mod _DI100Y / _DI4Y),
         ((n - 1) mod _DI400Y mod _DI100Y mod _DI4Y / 365),
         ((n - 1) mod _DI400Y mod _DI100Y mod _DI4Y mod 365).
  unfold _DI400Y, _DI100Y, _DI4Y.
  repeat split; try (Z.div_mod_to_equations; lia).
  unfold _ord2ymd, month_day, _DI400Y, _DI100Y, _DI4Y. cbv zeta.
  destruct (_ || _); [reflexivity|].
  destruct (_ <? _); reflexivity.
Qed.


Lemma dim_of_leap y m : _days_in_month y m = dim_of (_is_leap y) m.
Proof. reflexivity. Qed.

Lemma dbm_of_leap y m : _days_before_month y m = dbm_of (_is_leap y) m.
Proof. reflexivity. Qed.

(** [_ord2ymd] inverts [_ymd2ord] and yields fields that are a date. *)
Lemma ord2ymd_correct n :
  1 <= n ->
  let d := _ord2ymd n in
  _ymd2ord (year d) (month d) (day d) = n /\
  1 <= year d /\ 1 <= month d <= 12 /\
  1 <= day d <= _days_in_month (year d) (month d) /\
  (n <= _MAXORDINAL -> year d <= MAXYEAR).
Proof.
  intros Hn.
  destruct (ord2ymd_fields n Hn)
    as (n400 & n100 & n4 & n1 & r & E & H400 & H100 & H4 & H1 & Hr & I100 & I1 & ->).
  cbv zeta.
  destruct (Z.eqb_spec n1 4) as [-> | N1].
  - (* the last day of a leap year that is not the last of its century *)
    simpl orb. cbn [year month day].
    destruct (I1 eq_refl) as [-> I4].
    destruct (Z.eq_dec n100 4) as [-> | N100].
    + destruct (I100 eq_refl) as (_ & Habs & _). lia.
    + specialize (I4 N100).
      replace (n400 * 400 + 1 + (n100 * 100 + n4 * 4 + 4) - 1)
        with (n400 * 400 + 1 + (n100 * 100 + n4 * 4 + 3)) by lia.
      unfold _ymd2ord. rewrite dim_of_leap, dbm_of_leap.
      rewrite is_leap_decomp, days_before_year_decomp by lia.
      replace (n4 =? 24) with false by (symmetry; apply Z.eqb_neq; lia).
      change (dbm_of _ 12) with 335. change (dim_of _ 12) with 31.
      unfold _MAXORDINAL, MAXYEAR. lia.
  - destruct (Z.eqb_spec n100 4) as [-> | N100].
    + (* the last day of a 400-year cycle *)
      simpl orb. cbn [year month day].
      destruct (I100 eq_refl) as (-> & -> & ->).
      replace (n400 * 400 + 1 + (4 * 100 + 0 * 4 + 0) - 1)
        with (n400 * 400 + 1 + (3 * 100 + 24 * 4 + 3)) by lia.
      unfold _ymd2ord. rewrite dim_of_leap, dbm_of_leap.
      rewrite is_leap_decomp, days_before_year_decomp by lia.
      change (dbm_of _ 12) with 335. change (dim_of _ 12) with 31.
      unfold _MAXORDINAL, MAXYEAR. lia.
    + simpl orb. cbv iota. cbn [year month day].
      unfold _ymd2ord. rewrite dim_of_leap, dbm_of_leap.
      rewrite is_leap_decomp, days_before_year_decomp by lia.
      pose proof (month_day_spec ((n1 =? 3) && (negb (n4 =? 24) || (n100 =? 3))) r Hr) as S.
      destruct (month_day _ r) as [m d]. cbn [fst snd].
      unfold _MAXORDINAL, MAXYEAR. lia.
Qed.


Ltac month_cases m :=
  let H := fresh in
  assert (H : m = 1 \/ m = 2 \/ m = 3 \/ m = 4 \/ m = 5 \/ m = 6 \/ m = 7 \/
              m = 8 \/ m = 9 \/ m = 10 \/ m = 11 \/ m = 12) by lia;
  repeat (destruct H as [H | H]; [subst m | ]); [.. | subst m].

Ltac eval_tables :=
  repeat match goal with
         | |- context [dim_of ?l ?m] =>
             let v := eval vm_compute in (dim_of l m) in change (dim_of l m) with v
         | |- context [dbm_of ?l ?m] =>
             let v := eval vm_compute in (dbm_of l m) in change (dbm_of l m) with v
         end;
  unfold b2z.

Lemma valid_date_fields d :
  valid_date d = true ->
  1 <= year d <= 9999 /\ 1 <= month d <= 12 /\
  1 <= day d <= _days_in_month (year d) (month d).
Proof.
  unfold valid_date, MINYEAR, MAXYEAR. intros H.
  repeat (apply andb_prop in H; destruct H as [H ?]).
  repeat match goal with h : (_ <=? _) = true |- _ => apply Z.leb_le in h end.
  lia.
Qed.

Lemma fields_valid_date d :
  1 <= year d <= 9999 -> 1 <= month d <= 12 ->
  1 <= day d <= _days_in_month (year d) (month d) ->
  valid_date d = true.
Proof.
  intros. unfold valid_date, MINYEAR, MAXYEAR.
  repeat (apply andb_true_intro; split); apply Z.leb_le; lia.
Qed.

Lemma days_before_next_year y :
  _days_before_year (y + 1) = _days_before_year y + 365 + b2z (_is_leap y).
Proof.
  unfold _days_before_year, _is_leap, b2z. cbv zeta.
  repeat match goal with |- context [ ?a =? ?b ] => destruct (Z.eqb_spec a b) end;
    simpl; Z.div_mod_to_equations; lia.
Qed.

Lemma days_before_year_mono y1 y2 :
  y1 <= y2 -> _days_before_year y1 <= _days_before_year y2.
Proof.
  intros. unfold _days_before_year. cbv zeta. Z.div_mod_to_equations. lia.
Qed.

Lemma day_of_year_bounds leap m d :
  1 <= m <= 12 -> 1 <= d <= dim_of leap m ->
  1 <= dbm_of leap m + d <= 365 + b2z leap.
Proof.
  intros Hm. month_cases m; destruct leap; eval_tables; lia.
Qed.

Lemma month_before leap m1 m2 :
  1 <= m1 -> m1 < m2 -> m2 <= 12 ->
  dbm_of leap m1 + dim_of leap m1 <= dbm_of leap m2.
Proof.
  intros H1 H12 H2.
  assert (Hm1 : 1 <= m1 <= 12) by lia.
  assert (Hm2 : 1 <= m2 <= 12) by lia.
  month_cases m1; month_cases m2; try lia; destruct leap; eval_tables; lia.
Qed.

Lemma toordinal_lt a b :
  valid_date a = true -> valid_date b = true ->
  year a < year b \/
  (year a = year b /\
   (month a < month b \/ (month a = month b /\ day a < day b))) ->
  toordinal a < toordinal b.
Proof.
  intros Va Vb.
  apply valid_date_fields in Va, Vb.
  destruct a as [ya ma da], b as [yb mb db]. cbn [year month day] in *.
  unfold toordinal, _ymd2ord. cbn [year month day].
  rewrite !dbm_of_leap. rewrite !dim_of_leap in *.
  pose proof (day_of_year_bounds (_is_leap ya) ma da ltac:(lia) ltac:(lia)).
  pose proof (day_of_year_bounds (_is_leap yb) mb db ltac:(lia) ltac:(lia)).
  intros [Hy | [-> [Hm | [-> Hd]]]].
  - pose proof (days_before_next_year ya).
    pose proof (days_before_year_mono (ya + 1) yb ltac:(lia)). lia.
  - pose proof (month_before (_is_leap yb) ma mb ltac:(lia) Hm ltac:(lia)). lia.
  - lia.
Qed.

(** Dates compare as their ordinals do. *)
Lemma date_leb_toordinal a b :
  valid_date a = true -> valid_date b = true ->
  date_leb a b = true <-> toordinal a <= toordinal b.
Proof.
  intros Va Vb. unfold date_leb, date_cmp.
  pose proof (toordinal_lt a b Va Vb) as Lab.
  pose proof (toordinal_lt b a Vb Va) as Lba.
  destruct (Z.compare_spec (year a) (year b)) as [Ey | Ly | Gy].
  - destruct (Z.compare_spec (month a) (month b)) as [Em | Lm | Gm].
    + destruct (Z.compare_spec (day a) (day b)) as [Ed | Ld | Gd].
      * destruct a, b; cbn in *; subst. split; [lia | reflexivity].
      * split; [intros _ | reflexivity]. apply Z.lt_le_incl, Lab. lia.
      * split; [discriminate | intros Hle]. exfalso.
        assert (toordinal b < toordinal a) by (apply Lba; lia). lia.
    + split; [intros _ | reflexivity]. apply Z.lt_le_incl, Lab. lia.
    + split; [discriminate | intros Hle]. exfalso.
      assert (toordinal b < toordinal a) by (apply Lba; lia). lia.
  - split; [intros _ | reflexivity]. apply Z.lt_le_incl, Lab. lia.
  - split; [discriminate | intros Hle]. exfalso.
    assert (toordinal b < toordinal a) by (apply Lba; lia). lia.
Qed.

Lemma toordinal_range d :
  valid_date d = true -> 1 <= toordinal d <= _MAXORDINAL.
Proof.
  intros V. pose proof (valid_date_fields d V) as (Hy & Hm & Hd).
  unfold toordinal, _ymd2ord. rewrite dbm_of_leap. rewrite dim_of_leap in Hd.
  pose proof (day_of_year_bounds _ _ _ Hm Hd).
  pose proof (days_before_next_year (year d)).
  pose proof (days_before_year_mono 1 (year d) ltac:(lia)).
  pose proof (days_before_year_mono (year d + 1) 10000 ltac:(lia)).
  change (_days_before_year 1) with 0 in *.
  change (_days_before_year 10000) with 3652059 in *.
  unfold _MAXORDINAL. lia.
Qed.

Lemma toordinal_fromordinal n : 1 <= n -> toordinal (fromordinal n) = n.
Proof. intros H. apply (ord2ymd_correct n H). Qed.

Lemma fromordinal_valid n :
  1 <= n <= _MAXORDINAL -> valid_date (fromordinal n) = true.
Proof.
  intros [H1 H2]. pose proof (ord2ymd_correct n H1) as (_ & Hy & Hm & Hd & Hmax).
  apply fields_valid_date; unfold fromordinal; try lia.
  specialize (Hmax H2). unfold MAXYEAR in Hmax. lia.
Qed.

End CalendarFacts.

Import CalendarFacts.

(* ===================================================================== *)
(** * Properties of the summary loop *)
(* ===================================================================== *)

Section Aggregator.
Context {fs : FloatSyntax}.

Lemma with_log_nil w : with_log [] w = w.
Proof. destruct w. unfold with_log. cbn. by rewrite app_nil_r. Qed.

Lemma with_log_app l1 l2 w : with_log l2 (with_log l1 w) = with_log (l1 ++ l2) w.
Proof. unfold with_log. cbn. by rewrite app_assoc. Qed.

Lemma add_row_step sk ws we total r w :
  a_total total ->
  exists l, add_row sk ws we total r w
            = (Ok (add_to total (contribution ws we r)), with_log l w).
Proof.
  intros Ht. unfold add_row, try_except, bind, lift, contribution, row_in_span, row_amount.
  destruct (rbind (py_getitem r "Date") safe_parse_date) as [d | e]; cbn.
  - destruct (date_leb ws d && date_leb d we); cbn.
    + unfold rbind at 1.
      destruct (rbind (py_getitem r "Amount") py_float) as [a | e]; cbn.
      * destruct Ht as [-> | [f ->]]; cbn; exists []; by rewrite with_log_nil.
      * eexists [_]. reflexivity.
    + exists []. by rewrite with_log_nil.
  - eexists [_]. reflexivity.
Qed.

Lemma add_to_total t a : a_total t -> a_total (add_to t a).
Proof.
  intros [-> | [f ->]]; destruct a; cbn; unfold a_total; eauto.
Qed.

Lemma for_each_add_row sk ws we rows : forall total w,
  a_total total ->
  exists l, for_each rows (add_row sk ws we) total w
            = (Ok (fold_left add_to (map (contribution ws we) rows) total), with_log l w).
Proof.
  induction rows as [| r rows IH]; intros total w Ht; cbn.
  - exists []. by rewrite with_log_nil.
  - destruct (add_row_step sk ws we total r w Ht) as [l1 E1].
    unfold bind at 1. rewrite E1.
    destruct (IH _ (with_log l1 w) (add_to_total _ (contribution ws we r) Ht)) as [l2 E2].
    rewrite E2, with_log_app. eauto.
Qed.

Lemma fold_add_to_float cs : forall f,
  fold_left add_to cs (VFloat f)
  = VFloat (fold_left PrimFloat.add (omap id cs) f).
Proof.
  induction cs as [| [a |] cs IH]; intros f; cbn; [reflexivity | apply IH | apply IH].
Qed.

Lemma fold_add_to_zero cs :
  fold_left add_to cs (VInt 0) = running_total (omap id cs).
Proof.
  induction cs as [| [a |] cs IH]; cbn; [reflexivity | | exact IH].
  apply fold_add_to_float.
Qed.

Lemma contributions_amounts ws we rows :
  omap id (map (contribution ws we) rows)
  = omap row_amount (List.filter (row_in_span ws we) rows).
Proof.
  induction rows as [| r rows IH]; cbn; [reflexivity |].
  unfold contribution at 1.
  destruct (row_in_span ws we r); cbn; rewrite IH; reflexivity.
Qed.

Lemma sum_loop sk ws we rows w :
  exists l, for_each rows (add_row sk ws we) (VInt 0) w
            = (Ok (span_total ws we rows), with_log l w).
Proof.
  destruct (for_each_add_row sk ws we rows (VInt 0) w) as [l E]; [by left |].
  exists l. rewrite E, fold_add_to_zero, contributions_amounts. reflexivity.
Qed.

Lemma py_sub_totals ws we rows1 rows2 :
  exists b, py_sub (span_total ws we rows1) (span_total ws we rows2) = Ok b.
Proof.
  unfold span_total, running_total.
  destruct (omap _ _), (omap _ _); cbn; eauto.
Qed.

Lemma calculate_summary_spec ws we w :
  exists b l,
    py_sub (span_total ws we (get_all_records (earnings_sheet w)))
           (span_total ws we (get_all_records (expenses_sheet w))) = Ok b /\
    calculate_summary ws we w
    = (Ok (span_total ws we (get_all_records (earnings_sheet w)),
           span_total ws we (get_all_records (expenses_sheet w)), b),
       with_log l w).
Proof.
  destruct (py_sub_totals ws we (get_all_records (earnings_sheet w))
              (get_all_records (expenses_sheet w))) as [b Eb].
  destruct (sum_loop SkippingEarningsRow ws we (get_all_records (earnings_sheet w)) w)
    as [l1 E1].
  destruct (sum_loop SkippingExpensesRow ws we (get_all_records (expenses_sheet w))
              (with_log l1 w)) as [l2 E2].
  exists b, (l1 ++ l2)%list. split; [exact Eb |].
  unfold calculate_summary, bind, gets, lift, ret.
  rewrite E1. cbn [expenses_sheet with_log] in *. rewrite E2, Eb, with_log_app.
  reflexivity.
Qed.

End Aggregator.

(* ===================================================================== *)
(** * The week range *)
(* ===================================================================== *)

Section WeekRange.

Lemma weekday_bounds d : 0 <= weekday d < 7.
Proof. unfold weekday. apply Z.mod_pos_bound. lia. Qed.

(** The week of [D] by ordinals: [m] is the ordinal of its Monday. *)
Lemma get_week_range_ordinals D :
  valid_date D = true ->
  let m := toordinal D - weekday D in
  1 <= m <= toordinal D /\ toordinal D <= m + 6 /\ (m + 6) mod 7 = 0 /\
  get_week_range D =
    if m + 6 <=? _MAXORDINAL then Ok (fromordinal m, fromordinal (m + 6))
    else Raise OverflowError.
Proof.
  intros V m. pose proof (toordinal_range D V) as R.
  assert (Hm : 1 <= m <= toordinal D /\ toordinal D <= m + 6 /\ (m + 6) mod 7 = 0).
  { subst m. unfold weekday. Z.div_mod_to_equations. lia. }
  destruct Hm as (Hm1 & Hm2 & Hm3). repeat split; try lia.
  unfold get_week_range, sub_days, add_days.
  replace (toordinal D + - weekday D) with m by (subst m; lia).
  replace ((0 <? m) && (m <=? _MAXORDINAL)) with true
    by (symmetry; apply andb_true_intro; split; [apply Z.ltb_lt | apply Z.leb_le]; lia).
  cbn [rbind]. rewrite toordinal_fromordinal by lia.
  replace (0 <? m + 6) with true by (symmetry; apply Z.ltb_lt; lia).
  cbn [andb]. destruct (m + 6 <=? _MAXORDINAL); reflexivity.
Qed.

(** Every date between a Monday and the Sunday after it has that Monday
    as the start of its week. *)
Lemma monday_of_week m D :
  (m + 6) mod 7 = 0 -> m <= toordinal D <= m + 6 ->
  toordinal D - weekday D = m.
Proof.
  intros Hm HD. unfold weekday. Z.div_mod_to_equations. lia.
Qed.

End WeekRange.

(** C3 (as amended): for every valid date [D] up to 9999-12-26,
    [get_week_range D] returns a pair [(start, end_)] of dates where [start]
    is a Monday, [end_] is [start] plus six days and [start <= D <= end_];
    for the later dates, 9999-12-27 to 9999-12-31, it raises OverflowError,
    since the Sunday of their week is past [date.max]. *)
Theorem get_week_range_monday_span D :
  valid_date D = true ->
  (date_leb D last_full_week_day = true ->
   exists start end_,
     get_week_range D = Ok (start, end_) /\
     valid_date start = true /\ valid_date end_ = true /\
     weekday start = 0 /\
     add_days start 6 = Ok end_ /\ toordinal end_ = toordinal start + 6 /\
     date_leb start D = true /\ date_leb D end_ = true) /\
  (date_leb D last_full_week_day = false ->
   get_week_range D = Raise OverflowError).
Proof.
  intros V.
  pose proof (get_week_range_ordinals D V) as (Hm1 & Hm2 & Hm3 & E).
  set (m := toordinal D - weekday D) in *.
  assert (VL : valid_date last_full_week_day = true) by reflexivity.
  pose proof (date_leb_toordinal D last_full_week_day V VL) as L.
  change (toordinal last_full_week_day) with 3652054 in L.
  pose proof (toordinal_range D V) as R. unfold _MAXORDINAL in *.
  split.
  - intros Hle. apply L in Hle.
    assert (Hfit : m + 6 <= 3652059) by (Z.div_mod_to_equations; lia).
    replace (m + 6 <=? 3652059) with true in E by (symmetry; apply Z.leb_le; lia).
    assert (Vs : valid_date (fromordinal m) = true)
      by (apply fromordinal_valid; unfold _MAXORDINAL; lia).
    assert (Ve : valid_date (fromordinal (m + 6)) = true)
      by (apply fromordinal_valid; unfold _MAXORDINAL; lia).
    exists (fromordinal m), (fromordinal (m + 6)).
    repeat split; try assumption.
    + unfold weekday. rewrite toordinal_fromordinal by lia. exact Hm3.
    + unfold add_days. rewrite toordinal_fromordinal by lia.
      unfold _MAXORDINAL.
      replace ((0 <? m + 6) && (m + 6 <=? 3652059)) with true; [reflexivity |].
      symmetry; apply andb_true_intro; split; [apply Z.ltb_lt | apply Z.leb_le]; lia.
    + rewrite !toordinal_fromordinal by lia. reflexivity.
    + apply date_leb_toordinal; try assumption.
      rewrite toordinal_fromordinal by lia. lia.
    + apply date_leb_toordinal; try assumption.
      rewrite toordinal_fromordinal by lia. lia.
  - intros Hgt.
    assert (Hlate : 3652054 < toordinal D).
    { destruct (Z.le_gt_cases (toordinal D) 3652054) as [Hle | Hlt]; [| exact Hlt].
      apply L in Hle. congruence. }
    replace (m + 6 <=? 3652059) with false in E; [exact E |].
    symmetry. apply Z.leb_gt. Z.div_mod_to_equations. lia.
Qed.

Lemma get_week_range_monday_span_witness :
  exists start end_,
    get_week_range (mkdate 2024 6 5) = Ok (start, end_) /\
    valid_date start = true /\ valid_date end_ = true /\
    weekday start = 0 /\
    add_days start 6 = Ok end_ /\ toordinal end_ = toordinal start + 6 /\
    date_leb start (mkdate 2024 6 5) = true /\ date_leb (mkdate 2024 6 5) end_ = true.
Proof.
  apply (proj1 (get_week_range_monday_span (mkdate 2024 6 5) eq_refl)).
  reflexivity.
Defined.

(** C3, as first stated, fails on the last day of [datetime.date]: there
    [get_week_range] raises OverflowError and returns no pair. *)
Lemma get_week_range_not_total :
  valid_date (mkdate 9999 12 31) = true /\
  ~ (exists start end_, get_week_range (mkdate 9999 12 31) = Ok (start, end_)).
Proof.
  split; [reflexivity |].
  intros (s & e & H). vm_compute in H. discriminate H.
Qed.

(** C9: [get_week_range] is constant on its own span.  When it returns
    [(start, end_)] for a date [D], it returns the same pair for every date
    [D'] with [start <= D' <= end_], and for [start] itself. *)
Theorem get_week_range_constant D start end_ :
  valid_date D = true ->
  get_week_range D = Ok (start, end_) ->
  (forall D', valid_date D' = true ->
              date_leb start D' = true -> date_leb D' end_ = true ->
              get_week_range D' = Ok (start, end_)) /\
  get_week_range start = Ok (start, end_).
Proof.
  intros V E.
  pose proof (get_week_range_ordinals D V) as (Hm1 & Hm2 & Hm3 & E').
  set (m := toordinal D - weekday D) in *.
  rewrite E in E'.
  destruct (Z.leb_spec (m + 6) _MAXORDINAL) as [Hfit | Hover]; [| discriminate E'].
  injection E' as -> ->.
  assert (Vs : valid_date (fromordinal m) = true) by (apply fromordinal_valid; lia).
  assert (Ve : valid_date (fromordinal (m + 6)) = true) by (apply fromordinal_valid; lia).
  assert (K : forall D', valid_date D' = true ->
                         m <= toordinal D' <= m + 6 ->
                         get_week_range D' = Ok (fromordinal m, fromordinal (m + 6))).
  { intros D' V' HD'.
    pose proof (get_week_range_ordinals D' V') as (_ & _ & _ & E2).
    rewrite (monday_of_week m D' Hm3 HD') in E2.
    rewrite E2. destruct (Z.leb_spec (m + 6) _MAXORDINAL); [reflexivity | lia]. }
  split.
  - intros D' V' Hs He. apply K; [assumption |].
    apply date_leb_toordinal in Hs, He; try assumption.
    rewrite toordinal_fromordinal in Hs, He by lia. lia.
  - apply K; [assumption |]. rewrite toordinal_fromordinal by lia. lia.
Qed.

Lemma get_week_range_constant_witness :
  get_week_range (mkdate 2024 6 9) = Ok (mkdate 2024 6 3, mkdate 2024 6 9) /\
  get_week_range (mkdate 2024 6 3) = Ok (mkdate 2024 6 3, mkdate 2024 6 9).
Proof.
  pose proof (get_week_range_constant (mkdate 2024 6 5) (mkdate 2024 6 3) (mkdate 2024 6 9)
                eq_refl eq_refl) as [H1 H2].
  split; [| exact H2].
  apply H1; reflexivity.
Defined.

(* ===================================================================== *)
(** * The date parser *)
(* ===================================================================== *)

Lemma try_formats_ok s fmts d :
  try_formats (VStr s) fmts = Ok d <-> exists i, first_parse s fmts i d.
Proof.
  revert d. induction fmts as [| fmt fmts IH]; intros d; cbn.
  - split; [discriminate |]. intros (i & f & Hi & _). destruct i; discriminate Hi.
  - destruct (Strptime.strptime s fmt) as [d0 | e] eqn:E.
    + split.
      * intros [= ->]. exists 0%nat, fmt. repeat split; [assumption |]. intros j f Hj. lia.
      * intros ([| i] & f & Hi & Hd & Hprev).
        -- cbn in Hi. injection Hi as <-. congruence.
        -- specialize (Hprev 0%nat fmt ltac:(lia) eq_refl). rewrite E in Hprev. discriminate.
    + rewrite IH. split.
      * intros (i & f & Hi & Hd & Hprev). exists (S i), f. repeat split; try assumption.
        intros [| j] f' Hj Hf'.
        -- cbn in Hf'. injection Hf' as <-. rewrite E. reflexivity.
        -- apply (Hprev j f'); [lia | exact Hf'].
      * intros ([| i] & f & Hi & Hd & Hprev).
        -- cbn in Hi. injection Hi as <-. congruence.
        -- exists i, f. repeat split; try assumption.
           intros j f' Hj Hf'. apply (Hprev (S j) f'); [lia | exact Hf'].
Qed.

Lemma try_formats_raise s fmts :
  (forall fmt, In fmt fmts -> is_ok (Strptime.strptime s fmt) = false) <->
  try_formats (VStr s) fmts = Raise ValueError.
Proof.
  induction fmts as [| fmt fmts IH]; cbn.
  - split; [reflexivity | intros _ f []].
  - destruct (Strptime.strptime s fmt) as [d0 | e] eqn:E.
    + split; [| discriminate]. intros H. specialize (H fmt (or_introl eq_refl)).
      rewrite E in H. discriminate.
    + rewrite <- IH. split.
      * intros H f Hf. apply H. right. exact Hf.
      * intros H f [<- | Hf]; [rewrite E; reflexivity | apply H, Hf].
Qed.

Lemma try_formats_error_kind v fmts e :
  try_formats v fmts = Raise e -> e = ValueError.
Proof.
  induction fmts as [| fmt fmts IH]; cbn.
  - congruence.
  - destruct (strptime_date v fmt); [discriminate | exact IH].
Qed.

(** C4: the date parser tries ISO, then day-first slash, then month-first
    slash, and returns the date of the first format that parses the string;
    "03/04/2024", which both slash formats parse, comes out day-first; when
    no format parses the string it raises its one kind of error (the
    ValueError of "Unrecognized date format"), and any error it raises is
    of that kind. *)
Theorem safe_parse_date_first_match (s : string) :
  date_formats = ["%Y-%m-%d"; "%d/%m/%Y"; "%m/%d/%Y"] /\
  (forall d, safe_parse_date (VStr s) = Ok d <-> exists i, first_parse s date_formats i d) /\
  ((forall fmt, In fmt date_formats -> is_ok (Strptime.strptime s fmt) = false) <->
   safe_parse_date (VStr s) = Raise ValueError) /\
  (forall e, safe_parse_date (VStr s) = Raise e -> e = ValueError) /\
  Strptime.strptime "03/04/2024" "%m/%d/%Y" = Ok (mkdate 2024 3 4) /\
  safe_parse_date (VStr "03/04/2024") = Ok (mkdate 2024 4 3).
Proof.
  split; [reflexivity |].
  split; [intros d; apply try_formats_ok |].
  split; [apply try_formats_raise |].
  split; [intros e; apply try_formats_error_kind |].
  split; reflexivity.
Qed.

(* ===================================================================== *)
(** * The summary aggregator *)
(* ===================================================================== *)

Section Summary.
Context {fs : FloatSyntax}.

(** The result of [calculate_summary] as a function of the two row-sets. *)
Lemma calculate_summary_result ws we w :
  fst (calculate_summary ws we w)
  = rbind (py_sub (span_total ws we (get_all_records (earnings_sheet w)))
                  (span_total ws we (get_all_records (expenses_sheet w))))
          (fun b => Ok (span_total ws we (get_all_records (earnings_sheet w)),
                        span_total ws we (get_all_records (expenses_sheet w)), b)).
Proof.
  destruct (calculate_summary_spec ws we w) as (b & l & Eb & E).
  rewrite E, Eb. reflexivity.
Qed.

Lemma row_in_span_iff ws we r :
  row_in_span ws we r = true <->
  exists d, rbind (py_getitem r "Date") safe_parse_date = Ok d /\
            date_leb ws d = true /\ date_leb d we = true.
Proof.
  unfold row_in_span.
  destruct (rbind (py_getitem r "Date") safe_parse_date) as [d | e].
  - rewrite andb_true_iff. split.
    + intros [H1 H2]. exists d. auto.
    + intros (d' & [= <-] & H1 & H2). auto.
  - split; [discriminate | intros (d & Hd & _); discriminate].
Qed.

Lemma omap_cons_None {A B : Type} (f : A -> option B) (x : A) (l : list A) :
  f x = None -> omap f (x :: l) = omap f l.
Proof. intros H. cbn. rewrite H. reflexivity. Qed.

Lemma span_total_skip ws we r rows1 rows2 :
  malformed_row r ->
  span_total ws we (rows1 ++ r :: rows2) = span_total ws we (rows1 ++ rows2).
Proof.
  intros Hbad. unfold span_total. f_equal.
  rewrite !List.filter_app, !omap_app. f_equal. cbn [List.filter].
  destruct (row_in_span ws we r) eqn:Hin; [| reflexivity].
  apply omap_cons_None. unfold row_amount.
  destruct Hbad as [Hd | Ha].
  - unfold row_in_span in Hin.
    destruct (rbind (py_getitem r "Date") safe_parse_date); discriminate.
  - destruct (rbind (py_getitem r "Amount") py_float); [discriminate | reflexivity].
Qed.

End Summary.

Section SummarySkips.
Context {fs : FloatSyntax}.

Lemma records_with_earnings rows w :
  get_all_records (earnings_sheet (with_earnings rows w))
  = map (dict_zip (header (earnings_sheet w))) rows.
Proof. reflexivity. Qed.

Lemma records_with_expenses rows w :
  get_all_records (expenses_sheet (with_expenses rows w))
  = map (dict_zip (header (expenses_sheet w))) rows.
Proof. reflexivity. Qed.

Lemma skip_in_earnings ws we w pre bad post :
  malformed_row (dict_zip (header (earnings_sheet w)) bad) ->
  fst (calculate_summary ws we (with_earnings (pre ++ bad :: post) w))
  = fst (calculate_summary ws we (with_earnings (pre ++ post) w)).
Proof.
  intros Hbad. rewrite !calculate_summary_result, !records_with_earnings.
  rewrite !map_app. cbn [map]. rewrite (span_total_skip ws we _ _ _ Hbad).
  reflexivity.
Qed.

Lemma skip_in_expenses ws we w pre bad post :
  malformed_row (dict_zip (header (expenses_sheet w)) bad) ->
  fst (calculate_summary ws we (with_expenses (pre ++ bad :: post) w))
  = fst (calculate_summary ws we (with_expenses (pre ++ post) w)).
Proof.
  intros Hbad. rewrite !calculate_summary_result, !records_with_expenses.
  rewrite !map_app. cbn [map]. rewrite (span_total_skip ws we _ _ _ Hbad).
  reflexivity.
Qed.

Lemma calculate_summary_returns ws we w :
  exists totals, fst (calculate_summary ws we w) = Ok totals.
Proof.
  destruct (calculate_summary_spec ws we w) as (b & l & _ & E).
  rewrite E. eauto.
Qed.

End SummarySkips.

Section SummaryClaims.
Context {fs : FloatSyntax}.

(** C1: for every week span and every pair of row-sets, each total of
    [calculate_summary] is the running total of the amounts of exactly the
    rows of its set whose parsed date lies in the span, both ends included:
    such a row adds its amount (when its Amount cell is a number, see C2),
    a row whose date lies outside adds nothing. *)
Theorem calculate_summary_in_span ws we w :
  (forall r, row_in_span ws we r = true <->
             exists d, rbind (py_getitem r "Date") safe_parse_date = Ok d /\
                       date_leb ws d = true /\ date_leb d we = true) /\
  exists balance,
    fst (calculate_summary ws we w)
    = Ok (running_total
            (omap row_amount
               (List.filter (row_in_span ws we) (get_all_records (earnings_sheet w)))),
          running_total
            (omap row_amount
               (List.filter (row_in_span ws we) (get_all_records (expenses_sheet w)))),
          balance).
Proof.
  split; [apply row_in_span_iff |].
  destruct (calculate_summary_spec ws we w) as (b & l & _ & E).
  exists b. rewrite E. reflexivity.
Qed.

(** C2: a row whose date does not parse or whose amount is not a number is
    skipped: with such a row anywhere among the rows of either worksheet,
    [calculate_summary] still returns, and returns what it returns for the
    other rows alone. *)
Theorem calculate_summary_skips_malformed ws we w pre bad post :
  (malformed_row (dict_zip (header (earnings_sheet w)) bad) ->
   exists totals,
     fst (calculate_summary ws we (with_earnings (pre ++ bad :: post) w)) = Ok totals /\
     fst (calculate_summary ws we (with_earnings (pre ++ post) w)) = Ok totals) /\
  (malformed_row (dict_zip (header (expenses_sheet w)) bad) ->
   exists totals,
     fst (calculate_summary ws we (with_expenses (pre ++ bad :: post) w)) = Ok totals /\
     fst (calculate_summary ws we (with_expenses (pre ++ post) w)) = Ok totals).
Proof.
  split; intros Hbad.
  - destruct (calculate_summary_returns ws we (with_earnings (pre ++ post) w)) as [t E].
    exists t. split; [| exact E]. rewrite skip_in_earnings; assumption.
  - destruct (calculate_summary_returns ws we (with_expenses (pre ++ post) w)) as [t E].
    exists t. split; [| exact E]. rewrite skip_in_expenses; assumption.
Qed.

(** C5 (as amended): the balance that [calculate_summary] returns is
    what Python's [-] gives on its total of earnings and its total of
    expenses, the totals being those of the same span and row-sets: the
    integer 0 when both totals are the integer 0, and for two float totals
    their binary64 difference, rounded to nearest as IEEE 754 subtraction
    is; it is not the exact difference in general. *)
Theorem balance_is_float_difference ws we w :
  exists total_earnings total_expenses balance,
    fst (calculate_summary ws we w) = Ok (total_earnings, total_expenses, balance) /\
    total_earnings = span_total ws we (get_all_records (earnings_sheet w)) /\
    total_expenses = span_total ws we (get_all_records (expenses_sheet w)) /\
    py_sub total_earnings total_expenses = Ok balance /\
    (forall f g, total_earnings = VFloat f -> total_expenses = VFloat g ->
                 balance = VFloat (f - g)%float /\
                 Prim2SF (f - g)%float = SFsub prec emax (Prim2SF f) (Prim2SF g)) /\
    (total_earnings = VInt 0 -> total_expenses = VInt 0 -> balance = VInt 0).
Proof.
  destruct (calculate_summary_spec ws we w) as (b & l & Eb & E).
  eexists _, _, b. rewrite E.
  split; [reflexivity |]. split; [reflexivity |]. split; [reflexivity |].
  split; [exact Eb |]. split.
  - intros f g Hf Hg. rewrite Hf, Hg in Eb. cbn in Eb.
    split; [congruence | apply sub_spec].
  - intros He Hx. rewrite He, Hx in Eb. injection Eb as <-. reflexivity.
Qed.

(** C10: the two totals do not interfere.  The total of earnings is a
    function of the span and the earnings rows alone: it is the same
    whatever the expenses worksheet (and the rest of the world) holds; and
    likewise the total of expenses. *)
Theorem totals_do_not_interfere ws we (earnings expenses other : worksheet)
    (r r' : list text) (s s' : list (option string * text)) (l l' : list log_entry) :
  summary_earnings (fst (calculate_summary ws we (mkworld expenses earnings r s l)))
  = Some (span_total ws we (get_all_records earnings)) /\
  summary_earnings (fst (calculate_summary ws we (mkworld other earnings r' s' l')))
  = Some (span_total ws we (get_all_records earnings)) /\
  summary_expenses (fst (calculate_summary ws we (mkworld expenses earnings r s l)))
  = Some (span_total ws we (get_all_records expenses)) /\
  summary_expenses (fst (calculate_summary ws we (mkworld expenses other r' s' l')))
  = Some (span_total ws we (get_all_records expenses)).
Proof.
  repeat split;
    match goal with
    | |- context [calculate_summary ws we ?w] =>
        destruct (calculate_summary_spec ws we w) as (b & lg & _ & E); rewrite E; reflexivity
    end.
Qed.

End SummaryClaims.

(** A run of C2: the row dated 2024-13-45 among the June earnings. *)
Lemma calculate_summary_skips_malformed_witness :
  exists totals,
    fst (@calculate_summary digits_float_of_str (mkdate 2024 6 3) (mkdate 2024 6 9)
           (with_earnings
              ([ [VStr "2024-06-03"; VStr "Monday"; VInt 100; VStr ""] ]
               ++ [VStr "2024-13-45"; VStr "Sunday"; VInt 7; VStr ""]
               :: [ [VStr "2024-06-09"; VStr "Sunday"; VInt 200; VStr ""] ])
              june_world)) = Ok totals /\
    fst (@calculate_summary digits_float_of_str (mkdate 2024 6 3) (mkdate 2024 6 9)
           (with_earnings
              ([ [VStr "2024-06-03"; VStr "Monday"; VInt 100; VStr ""] ]
               ++ [ [VStr "2024-06-09"; VStr "Sunday"; VInt 200; VStr ""] ])
              june_world)) = Ok totals.
Proof.
  apply (proj1 (@calculate_summary_skips_malformed digits_float_of_str
                  (mkdate 2024 6 3) (mkdate 2024 6 9) june_world
                  [ [VStr "2024-06-03"; VStr "Monday"; VInt 100; VStr ""] ]
                  [VStr "2024-13-45"; VStr "Sunday"; VInt 7; VStr ""]
                  [ [VStr "2024-06-09"; VStr "Sunday"; VInt 200; VStr ""] ])).
  left. vm_compute. reflexivity.
Defined.

(** C5, as first stated, fails when the difference is not a float: with
    earnings of 2^54 and an expense of 1 the balance returned is 2^54, the
    total of earnings itself, not 2^54 - 1. *)
Lemma balance_not_exact :
  fst (@calculate_summary digits_float_of_str (mkdate 2024 6 3) (mkdate 2024 6 9)
         rounding_world)
  = Ok (VFloat 18014398509481984, VFloat 1, VFloat 18014398509481984) /\
  exact_int (VFloat 18014398509481984) = Some 18014398509481984 /\
  exact_int (VFloat 1) = Some 1 /\
  18014398509481984 - 1 <> 18014398509481984.
Proof.
  split; [vm_compute; reflexivity |].
  split; [vm_compute; reflexivity |].
  split; [vm_compute; reflexivity | lia].
Qed.

(* ===================================================================== *)
(** * The command handlers and the scheduled job *)
(* ===================================================================== *)

Section Handlers.
Context {fs : FloatSyntax}.

(** C7: when [/spend] is called with no amount, with no category, or with
    an amount that is not a number, the handler replies with the usage
    message and appends nothing: both worksheets are as before. *)
Theorem spend_malformed_leaves_store args now w :
  malformed_spend args ->
  exists e,
    spend args now w
    = (Ok tt,
       mkworld (expenses_sheet w) (earnings_sheet w) (replies w ++ [SpendUsage])
               (sent w) (errlog w ++ [ErrorIn "/spend" e])).
Proof.
  intros [-> | [[a ->] | (a & rest & -> & Hbad)]].
  - exists IndexError. reflexivity.
  - unfold spend, try_except, bind, lift. cbn.
    destruct (float_of_str a); cbn; eauto.
  - exists ValueError. unfold spend, try_except, bind, lift. cbn.
    rewrite Hbad. reflexivity.
Qed.

Lemma after_date_min T :
  valid_date T = true -> T <> date_min -> 2 <= toordinal T.
Proof.
  intros V N.
  assert (H : toordinal date_min < toordinal T).
  { apply toordinal_lt; [reflexivity | assumption |].
    pose proof (valid_date_fields T V) as (Hy & Hm & Hd).
    destruct T as [y m d]. cbn [year month day date_min] in *.
    destruct (Z.eq_dec y 1) as [-> | ?]; [right; split; [reflexivity |] | lia].
    destruct (Z.eq_dec m 1) as [-> | ?]; [right; split; [reflexivity |] | lia].
    destruct (Z.eq_dec d 1) as [-> | ?]; [| lia].
    exfalso. apply N. reflexivity. }
  change (toordinal date_min) with 1 in H. lia.
Qed.

(** C6 (as amended): on every Monday [T] other than 0001-01-01, the
    scheduled job, reading [T] as today, aggregates over the week that ends
    the day before [T] and starts six days earlier, and sends the summary
    of that span to the configured CHAT_ID. *)
Theorem scheduled_job_previous_week cfg T w :
  valid_date T = true -> fires_on T = true -> T <> date_min ->
  exists week_start week_end earnings expenses balance,
    sub_days T 1 = Ok week_end /\
    sub_days week_end 6 = Ok week_start /\
    fst (calculate_summary week_start week_end w) = Ok (earnings, expenses, balance) /\
    sent (snd (send_weekly_summary cfg T w))
    = (sent w ++ [(CHAT_ID cfg, WeeklySummary week_start week_end earnings expenses balance)])%list.
Proof.
  intros V F N.
  pose proof (after_date_min T V N) as H2.
  pose proof (toordinal_range T V) as R.
  unfold fires_on, trigger_day_of_week in F. apply Z.eqb_eq in F.
  set (o := toordinal T) in *.
  assert (Ho : 8 <= o /\ (o - 1) mod 7 = 0 /\ (o - 1 + 6) mod 7 = 6).
  { unfold weekday in F. fold o in F. Z.div_mod_to_equations. lia. }
  destruct Ho as (Ho8 & Ho7 & Ho6).
  assert (Ee : sub_days T 1 = Ok (fromordinal (o - 1))).
  { unfold sub_days, add_days. fold o. replace (o + - (1)) with (o - 1) by lia.
    replace ((0 <? o - 1) && (o - 1 <=? _MAXORDINAL)) with true; [reflexivity |].
    symmetry; apply andb_true_intro; split; [apply Z.ltb_lt | apply Z.leb_le]; lia. }
  assert (Ve : valid_date (fromordinal (o - 1)) = true) by (apply fromordinal_valid; lia).
  assert (Oe : toordinal (fromordinal (o - 1)) = o - 1) by (apply toordinal_fromordinal; lia).
  assert (We : weekday (fromordinal (o - 1)) = 6) by (unfold weekday; rewrite Oe; exact Ho6).
  assert (Es : sub_days (fromordinal (o - 1)) 6 = Ok (fromordinal (o - 7))).
  { unfold sub_days, add_days. rewrite Oe. replace (o - 1 + - (6)) with (o - 7) by lia.
    replace ((0 <? o - 7) && (o - 7 <=? _MAXORDINAL)) with true; [reflexivity |].
    symmetry; apply andb_true_intro; split; [apply Z.ltb_lt | apply Z.leb_le]; lia. }
  assert (Ew : get_week_range (fromordinal (o - 1))
               = Ok (fromordinal (o - 7), fromordinal (o - 1))).
  { pose proof (get_week_range_ordinals _ Ve) as (_ & _ & _ & E).
    rewrite Oe, We in E. replace (o - 1 - 6) with (o - 7) in E by lia.
    replace (o - 7 + 6) with (o - 1) in E by lia.
    replace (o - 1 <=? _MAXORDINAL) with true in E by (symmetry; apply Z.leb_le; lia).
    exact E. }
  destruct (calculate_summary_spec (fromordinal (o - 7)) (fromordinal (o - 1)) w)
    as (b & l & _ & Ec).
  eexists _, _, _, _, b. split; [exact Ee |]. split; [exact Es |].
  split; [rewrite Ec; reflexivity |].
  unfold send_weekly_summary, try_except, bind, lift.
  rewrite Ee, Ew, Ec. reflexivity.
Qed.

End Handlers.

Lemma spend_malformed_leaves_store_witness :
  exists e,
    @spend digits_float_of_str ["12"] (mkdate 2024 6 5) june_world
    = (Ok tt,
       mkworld (expenses_sheet june_world) (earnings_sheet june_world)
               (replies june_world ++ [SpendUsage])
               (sent june_world) (errlog june_world ++ [ErrorIn "/spend" e])).
Proof.
  apply (@spend_malformed_leaves_store digits_float_of_str ["12"] (mkdate 2024 6 5) june_world).
  right. left. exists "12". reflexivity.
Defined.

Lemma scheduled_job_previous_week_witness :
  exists week_start week_end earnings expenses balance,
    sub_days (mkdate 2024 6 10) 1 = Ok week_end /\
    sub_days week_end 6 = Ok week_start /\
    fst (@calculate_summary digits_float_of_str week_start week_end june_world)
    = Ok (earnings, expenses, balance) /\
    sent (snd (@send_weekly_summary digits_float_of_str full_config (mkdate 2024 6 10)
                 june_world))
    = (sent june_world
       ++ [(CHAT_ID full_config,
            WeeklySummary week_start week_end earnings expenses balance)])%list.
Proof.
  apply (@scheduled_job_previous_week digits_float_of_str full_config (mkdate 2024 6 10)
           june_world).
  - reflexivity.
  - reflexivity.
  - discriminate.
Defined.

(** C6, as first stated, fails on the Monday 0001-01-01: the day before
    it is not a date, the job raises OverflowError, logs it and sends
    nothing. *)
Lemma scheduled_job_first_monday :
  valid_date date_min = true /\ fires_on date_min = true /\
  sub_days date_min 1 = Raise OverflowError /\
  snd (@send_weekly_summary digits_float_of_str full_config date_min june_world)
  = with_log [ErrorIn "auto-summary" OverflowError] june_world /\
  sent (snd (@send_weekly_summary digits_float_of_str full_config date_min june_world)) = [].
Proof. repeat split; reflexivity. Qed.

(* ===================================================================== *)
(** * Start-up configuration *)
(* ===================================================================== *)

(** The check of lines 29-30 covers the token, the sheet identifier and
    the credentials. *)
Lemma load_config_checks_three environ :
  py_not (environ !! "TELEGRAM_TOKEN") = true \/
  py_not (environ !! "SHEET_ID") = true \/
  py_not (environ !! "GOOGLE_CREDENTIALS") = true ->
  load_config environ = Raise ValueError.
Proof.
  unfold load_config. intros [H | [H | H]]; rewrite H;
    rewrite ?orb_true_r; reflexivity.
Qed.

(** The check reads nothing of CHAT_ID. *)
Lemma load_config_ignores_chat_id environ v :
  is_ok (load_config (<["CHAT_ID" := v]> environ)) = is_ok (load_config environ) /\
  is_ok (load_config (delete "CHAT_ID" environ)) = is_ok (load_config environ).
Proof.
  unfold load_config. split.
  - rewrite !lookup_insert_ne by discriminate.
    destruct (_ || _); reflexivity.
  - rewrite !lookup_delete_ne by discriminate.
    destruct (_ || _); reflexivity.
Qed.

(** C8 (as amended): start-up raises its configuration error, before the
    spreadsheet is opened and before any command is served, whenever one
    of three values is absent: the bot token, the sheet identifier or the
    credentials.  The recipient of the scheduled push, CHAT_ID, is read
    but not checked: setting or removing it never changes whether the
    check passes. *)
Theorem startup_requires_three google environ :
  environ !! "TELEGRAM_TOKEN" = None \/
  environ !! "SHEET_ID" = None \/
  environ !! "GOOGLE_CREDENTIALS" = None ->
  startup google environ = Raise ValueError /\
  (forall v, is_ok (load_config (<["CHAT_ID" := v]> environ)) = is_ok (load_config environ)) /\
  is_ok (load_config (delete "CHAT_ID" environ)) = is_ok (load_config environ).
Proof.
  intros H. split; [| split].
  - unfold startup. rewrite load_config_checks_three; [reflexivity |].
    destruct H as [H | [H | H]]; rewrite H; auto.
  - intros v. apply load_config_ignores_chat_id.
  - apply (load_config_ignores_chat_id environ "").
Qed.

Lemma startup_requires_three_witness :
  startup empty_google (delete "SHEET_ID" environ_without_chat_id) = Raise ValueError /\
  (forall v, is_ok (load_config (<["CHAT_ID" := v]> (delete "SHEET_ID" environ_without_chat_id)))
             = is_ok (load_config (delete "SHEET_ID" environ_without_chat_id))) /\
  is_ok (load_config (delete "CHAT_ID" (delete "SHEET_ID" environ_without_chat_id)))
  = is_ok (load_config (delete "SHEET_ID" environ_without_chat_id)).
Proof.
  apply (startup_requires_three empty_google (delete "SHEET_ID" environ_without_chat_id)).
  right. left. vm_compute. reflexivity.
Defined.

(** C8, as first stated, fails for the fourth value: with the token, the
    sheet identifier and the credentials set and CHAT_ID absent, the
    check passes and start-up yields the world in which commands are
    served. *)
Lemma startup_without_chat_id :
  environ_without_chat_id !! "CHAT_ID" = None /\
  load_config environ_without_chat_id
  = Ok (mkconfig (Some "token") (Some "sheet") (Some "{}") None) /\
  startup empty_google environ_without_chat_id
  = Ok (mkconfig (Some "token") (Some "sheet") (Some "{}") None, empty_world).
Proof. repeat split; vm_compute; reflexivity. Qed.

(* ===================================================================== *)
(** * The scenarios of the specification, run on the model *)
(* ===================================================================== *)

(** Earnings of 100 and 200 and an expense of 50 in the week of
    2024-06-05. *)
Example scenario_june_week :
  get_week_range (mkdate 2024 6 5) = Ok (mkdate 2024 6 3, mkdate 2024 6 9) /\
  fst (@calculate_summary digits_float_of_str (mkdate 2024 6 3) (mkdate 2024 6 9) june_world)
  = Ok (VFloat 300, VFloat 50, VFloat 250).
Proof. split; vm_compute; reflexivity. Qed.

(** A row dated "2024-13-45" is skipped and logged. *)
Example scenario_bad_date :
  safe_parse_date (VStr "2024-13-45") = Raise ValueError /\
  let w := with_earnings [ [VStr "2024-13-45"; VStr "Sunday"; VInt 7; VStr ""] ] june_world in
  fst (@calculate_summary digits_float_of_str (mkdate 2024 6 3) (mkdate 2024 6 9) w)
  = Ok (VInt 0, VFloat 50, VFloat (-50)) /\
  length (errlog (snd (@calculate_summary digits_float_of_str (mkdate 2024 6 3)
                         (mkdate 2024 6 9) w))) = 1%nat.
Proof. repeat split; vm_compute; reflexivity. Qed.

(** [/earn 500 bonus payment] appends one earnings row. *)
Example scenario_earn :
  body (earnings_sheet (snd (@earn digits_float_of_str ["500"; "bonus"; "payment"]
                               (mkdate 2024 6 5) empty_world)))
  = [ [VStr "2024-06-05"; VStr "Wednesday"; VFloat 500; VStr "bonus payment"] ].
Proof. vm_compute. reflexivity. Qed.

(** [/spend] with one argument: usage reply, nothing appended. *)
Example scenario_spend_one_argument :
  @spend digits_float_of_str ["12"] (mkdate 2024 6 5) empty_world
  = (Ok tt, mkworld (expenses_sheet empty_world) (earnings_sheet empty_world)
                    [SpendUsage] [] [ErrorIn "/spend" IndexError]).
Proof. vm_compute. reflexivity. Qed.

(** The month-first format is reached when the day-first one fails. *)
Example parse_month_first :
  safe_parse_date (VStr "12/25/2024") = Ok (mkdate 2024 12 25).
Proof. vm_compute. reflexivity. Qed.

(* ===================================================================== *)
(** * Dates written by the handlers are read back by the parser *)
(* ===================================================================== *)

Module IsoText.

Lemma re_match_group_lit x alts c r' s :
  Strptime.re_match (Strptime.Group x alts :: Strptime.Lit c :: r') s
  = group_then x alts (lit_then c (Strptime.re_match r')) s.
Proof. reflexivity. Qed.

Lemma month_then m k :
  1 <= m <= 12 ->
  exists x y, two_digits m = String x (String y EmptyString) /\
    Strptime.int_of (two_digits m) 0 = m /\
    forall rest,
      group_then "m" alts_m (lit_then "-" k) (String x (String y (String "-" rest)))
      = match k rest with
        | Some (caps, fin) => Some (("m"%char, two_digits m) :: caps, fin)
        | None => None
        end.
Proof.
  intros Hm. month_cases m;
    (do 2 eexists; split; [vm_compute; reflexivity |]; split; [reflexivity |];
     intros rest; vm_compute; destruct (k rest) as [[caps fin] |]; reflexivity).
Qed.


Lemma pattern_iso :
  Strptime.pattern "%Y-%m-%d"
  = Ok [Strptime.Group "Y" alts_Y; Strptime.Lit "-"; Strptime.Group "m" alts_m;
        Strptime.Lit "-"; Strptime.Group "d" alts_d].
Proof. reflexivity. Qed.

Lemma pretty_N_char_digit (d : N) :
  (d < 10)%N ->
  Strptime.in_class (pretty_N_char d) Strptime.digit = true /\
  Strptime.code (pretty_N_char d) - 48 = Z.of_N d.
Proof.
  intros H.
  assert (C : (d = 0 \/ d = 1 \/ d = 2 \/ d = 3 \/ d = 4 \/ d = 5 \/ d = 6 \/
               d = 7 \/ d = 8 \/ d = 9)%N) by lia.
  repeat (destruct C as [-> | C]; [split; reflexivity |]). subst d. split; reflexivity.
Qed.

Lemma pretty_year (y : Z) :
  1000 <= y <= 9999 ->
  exists a b c e,
    pretty y = String a (String b (String c (String e EmptyString))) /\
    Strptime.in_class a Strptime.digit = true /\
    Strptime.in_class b Strptime.digit = true /\
    Strptime.in_class c Strptime.digit = true /\
    Strptime.in_class e Strptime.digit = true /\
    Strptime.int_of (pretty y) 0 = y.
Proof.
  intros Hy. destruct y as [| p | p]; try lia.
  set (n := Npos p).
  assert (Hn : (1000 <= n <= 9999)%N) by (subst n; lia).
  assert (E : pretty (Zpos p)
              = String (pretty_N_char (N.modulo (N.div (N.div (N.div n 10) 10) 10) 10))
                  (String (pretty_N_char (N.modulo (N.div (N.div n 10) 10) 10))
                     (String (pretty_N_char (N.modulo (N.div n 10) 10))
                        (String (pretty_N_char (N.modulo n 10)) EmptyString)))).
  { change (pretty (Zpos p)) with (pretty_N_go n "").
    rewrite pretty_N_go_step by lia.
    rewrite pretty_N_go_step by (Zify.zify; Z.div_mod_to_equations; lia).
    rewrite pretty_N_go_step by (Zify.zify; Z.div_mod_to_equations; lia).
    rewrite pretty_N_go_step by (Zify.zify; Z.div_mod_to_equations; lia).
    replace (N.div (N.div (N.div (N.div n 10) 10) 10) 10) with 0%N
      by (Zify.zify; Z.div_mod_to_equations; lia).
    apply pretty_N_go_0. }
  destruct (pretty_N_char_digit (N.modulo (N.div (N.div (N.div n 10) 10) 10) 10))
    as [Ha Va]; [apply N.mod_lt; lia |].
  destruct (pretty_N_char_digit (N.modulo (N.div (N.div n 10) 10) 10))
    as [Hb Vb]; [apply N.mod_lt; lia |].
  destruct (pretty_N_char_digit (N.modulo (N.div n 10) 10))
    as [Hc Vc]; [apply N.mod_lt; lia |].
  destruct (pretty_N_char_digit (N.modulo n 10))
    as [He Ve]; [apply N.mod_lt; lia |].
  do 4 eexists. split; [exact E |]. repeat split; try assumption.
  rewrite E. cbn [Strptime.int_of]. rewrite Ha, Hb, Hc, He.
  rewrite Va, Vb, Vc, Ve. rewrite !N2Z.inj_mod, !N2Z.inj_div.
  change (Z.of_N n) with (Z.pos p). change (Z.of_N 10) with 10.
  clear -Hy. Z.div_mod_to_equations. lia.
Qed.


Lemma re_match_year a b c e rest r' :
  Strptime.in_class a Strptime.digit = true ->
  Strptime.in_class b Strptime.digit = true ->
  Strptime.in_class c Strptime.digit = true ->
  Strptime.in_class e Strptime.digit = true ->
  Strptime.re_match (Strptime.Group "Y" alts_Y :: Strptime.Lit "-" :: r')
    (String a (String b (String c (String e (String "-" rest)))))
  = match Strptime.re_match r' rest with
    | Some (caps, fin) =>
        Some (("Y"%char, String a (String b (String c (String e EmptyString)))) :: caps, fin)
    | None => None
    end.
Proof.
  intros Ha Hb Hc He. unfold alts_Y.
  cbn [Strptime.re_match Strptime.first_some Strptime.match_classes].
  rewrite Ha, Hb, Hc, He. cbn [Ascii.eqb Bool.eqb].
  destruct (Strptime.re_match r' rest) as [[caps fin] |]; reflexivity.
Qed.

Lemma day_text_table :
  forallb (fun k => day_text_ok (Z.of_nat k)) (seq 1 31) = true.
Proof. vm_compute. reflexivity. Qed.

Lemma two_digits_day d :
  1 <= d <= 31 ->
  Strptime.re_match [Strptime.Group "d" alts_d] (two_digits d)
  = Some ([("d"%char, two_digits d)], EmptyString) /\
  Strptime.int_of (two_digits d) 0 = d.
Proof.
  intros Hd. pose proof day_text_table as T. rewrite forallb_forall in T.
  specialize (T (Z.to_nat d)). rewrite Z2Nat.id in T by lia.
  assert (Hin : In (Z.to_nat d) (seq 1 31)) by (apply in_seq; lia).
  apply T in Hin. unfold day_text_ok in Hin.
  destruct (Strptime.re_match _ (two_digits d)) as [[[| [x t] [| ? ?]] [| ? ?]] |];
    try discriminate.
  apply andb_prop in Hin as [Hin Hv]. apply andb_prop in Hin as [Hx Ht].
  apply Ascii.eqb_eq in Hx. apply String.eqb_eq in Ht. apply Z.eqb_eq in Hv.
  subst. split; [reflexivity | assumption].
Qed.

(** [strptime] reads back what [strftime("%Y-%m-%d")] writes. *)
Lemma strptime_strftime_iso d :
  valid_date d = true -> 1000 <= year d ->
  Strptime.strptime (strftime_iso d) "%Y-%m-%d" = Ok d.
Proof.
  intros V Hy. pose proof (valid_date_fields d V) as (Hy' & Hm & Hd).
  assert (Hd31 : 1 <= day d <= 31).
  { rewrite dim_of_leap in Hd.
    assert (dim_of (_is_leap (year d)) (month d) <= 31); [| lia].
    revert Hm. generalize (month d) as m. intros m Hm.
    month_cases m; destruct (_is_leap (year d)); vm_compute; discriminate. }
  destruct (IsoText.pretty_year (year d) ltac:(lia)) as (a & b & c & e & Ey & Ha & Hb & Hc & He & Vy).
  destruct (month_then (month d) (Strptime.re_match [Strptime.Group "d" alts_d]) Hm)
    as (x & y & Em & Vm & Mm).
  destruct (two_digits_day (day d) Hd31) as [Md Vd].
  unfold Strptime.strptime. rewrite pattern_iso. cbn [rbind].
  unfold strftime_iso. rewrite Ey, Em. cbv [String.append].
  rewrite re_match_year by assumption. rewrite re_match_group_lit, Mm, Md.
  unfold Strptime.field. cbn [Strptime.group Ascii.eqb Bool.eqb].
  rewrite <- Ey, Vy, Vm, Vd.
  unfold make_date. destruct d as [yy mm dd]. cbn [year month day] in *.
  rewrite V. reflexivity.
Qed.

End IsoText.

Lemma safe_parse_date_iso d :
  valid_date d = true -> 1000 <= year d ->
  safe_parse_date (VStr (strftime_iso d)) = Ok d.
Proof.
  intros V Hy. unfold safe_parse_date, date_formats. cbn [try_formats strptime_date].
  rewrite (IsoText.strptime_strftime_iso d V Hy). reflexivity.
Qed.

(** X1: a date written as [strftime("%Y-%m-%d")] writes it, as [spend] and
    [earn] do for the Date column, is parsed back by [safe_parse_date] to
    the same date (for years of four digits). *)
Theorem safe_parse_date_reads_strftime d :
  valid_date d = true -> 1000 <= year d ->
  safe_parse_date (VStr (strftime_iso d)) = Ok d.
Proof.
  intros V Hy. apply safe_parse_date_iso; assumption.
Qed.

Lemma safe_parse_date_reads_strftime_witness :
  safe_parse_date (VStr (strftime_iso (mkdate 2024 2 29))) = Ok (mkdate 2024 2 29).
Proof.
  apply (safe_parse_date_reads_strftime (mkdate 2024 2 29)); [reflexivity | discriminate].
Defined.

(* ===================================================================== *)
(** * What the date parser accepts *)
(* ===================================================================== *)

Module ParserFacts.

Lemma strptime_valid s fmt d :
  Strptime.strptime s fmt = Ok d -> valid_date d = true.
Proof.
  unfold Strptime.strptime.
  destruct (Strptime.pattern fmt) as [r | e]; [cbn [rbind] | discriminate].
  destruct (Strptime.re_match r s) as [[caps [| ? ?]] |]; try discriminate.
  unfold make_date.
  destruct (valid_date (mkdate _ _ _)) eqn:V; [| discriminate].
  intros [= <-]. exact V.
Qed.

Lemma try_formats_from_strptime v fmts d :
  try_formats v fmts = Ok d ->
  exists s fmt, v = VStr s /\ In fmt fmts /\ Strptime.strptime s fmt = Ok d.
Proof.
  induction fmts as [| fmt fmts IH]; cbn; [discriminate |].
  destruct (strptime_date v fmt) as [d0 | e] eqn:E.
  - intros [= ->]. destruct v as [s | z | f]; try discriminate E.
    exists s, fmt. auto.
  - intros H. destruct (IH H) as (s & f & Hv & Hin & Hs). exists s, f. auto.
Qed.

Lemma match_classes_length ks s cap rest :
  Strptime.match_classes ks s = Some (cap, rest) ->
  String.length s = (length ks + String.length rest)%nat.
Proof.
  revert s cap rest. induction ks as [| k ks IH]; intros s cap rest; cbn.
  - intros [= <- <-]. reflexivity.
  - destruct s as [| c s']; [discriminate |].
    destruct (Strptime.in_class c k); [| discriminate].
    destruct (Strptime.match_classes ks s') as [[cap' r'] |] eqn:E; [| discriminate].
    intros [= <- <-]. cbn. rewrite (IH _ _ _ E). reflexivity.
Qed.

Lemma first_some_Some {A B : Type} (f : A -> option B) l b :
  Strptime.first_some f l = Some b -> exists a, In a l /\ f a = Some b.
Proof.
  induction l as [| a l IH]; cbn; [discriminate |].
  destruct (f a) as [b' |] eqn:E.
  - intros [= <-]. exists a. auto.
  - intros H. destruct (IH H) as (a' & Hin & Ha'). exists a'. auto.
Qed.

Lemma shortest_le alts alt :
  In alt alts -> (shortest alts <= length alt)%nat.
Proof.
  induction alts as [| a [| b rest] IH].
  - intros [].
  - intros [<- | []]. reflexivity.
  - intros [<- | Hin].
    + cbn [shortest]. apply Nat.le_min_l.
    + change (shortest (a :: b :: rest)) with (Nat.min (length a) (shortest (b :: rest))).
      etransitivity; [apply Nat.le_min_r | exact (IH Hin)].
Qed.

Lemma longest_ge alts alt :
  In alt alts -> (length alt <= longest alts)%nat.
Proof.
  intros Hin. unfold longest.
  pose proof (proj1 (list_max_le (map (@length Strptime.cclass) alts) _) (le_n _)) as F.
  rewrite List.Forall_forall in F. apply F. apply in_map. exact Hin.
Qed.

(** A match consumes between [min_len] and [max_len] characters. *)
Lemma re_match_length r : forall s caps rest,
  Strptime.re_match r s = Some (caps, rest) ->
  (min_len r + String.length rest <= String.length s
   /\ String.length s <= max_len r + String.length rest)%nat.
Proof.
  induction r as [| [c | x alts] r IH]; intros s caps rest; cbn [Strptime.re_match min_len max_len].
  - intros [= <- <-]. lia.
  - destruct s as [| c' s']; [discriminate |].
    destruct (Ascii.eqb c c'); [| discriminate].
    intros H. apply IH in H. cbn. lia.
  - intros H. apply first_some_Some in H as (alt & Hin & H).
    destruct (Strptime.match_classes alt s) as [[cap r1] |] eqn:E; [| discriminate].
    destruct (Strptime.re_match r r1) as [[caps' fin] |] eqn:E'; [| discriminate].
    injection H as <- <-.
    apply match_classes_length in E. apply IH in E'.
    pose proof (shortest_le alts alt Hin). pose proof (longest_ge alts alt Hin). lia.
Qed.

Lemma strptime_length s fmt d r :
  Strptime.pattern fmt = Ok r -> Strptime.strptime s fmt = Ok d ->
  (min_len r <= String.length s <= max_len r)%nat.
Proof.
  intros Hp. unfold Strptime.strptime. rewrite Hp. cbn [rbind].
  destruct (Strptime.re_match r s) as [[caps [| ? ?]] |] eqn:E; try discriminate.
  intros _. apply re_match_length in E. cbn in E. lia.
Qed.

End ParserFacts.

(** X2: whatever cell [safe_parse_date] is given, a date it returns is a
    date of the calendar (year 1 to 9999, month 1 to 12, day within the
    month) parsed from a string of 8 to 10 characters; a cell that is a
    number is never parsed, and any exception raised is a ValueError. *)
Theorem safe_parse_date_sound (v : pyval) :
  (forall d, safe_parse_date v = Ok d ->
             valid_date d = true /\
             exists s, v = VStr s /\ (8 <= String.length s <= 10)%nat) /\
  (forall e, safe_parse_date v = Raise e -> e = ValueError).
Proof.
  split.
  - intros d H. apply ParserFacts.try_formats_from_strptime in H as (s & fmt & -> & Hin & Hs).
    split; [exact (ParserFacts.strptime_valid _ _ _ Hs) |].
    exists s. split; [reflexivity |].
    destruct Hin as [<- | [<- | [<- | []]]];
      (eapply ParserFacts.strptime_length in Hs; [| reflexivity]); cbn in Hs; exact Hs.
  - intros e. apply try_formats_error_kind.
Qed.

(* ===================================================================== *)
(** * The summary aggregator: log, empty totals, missing columns *)
(* ===================================================================== *)

Section AggregatorFacts.
Context {fs : FloatSyntax}.

Lemma add_row_exact sk ws we total r w :
  a_total total ->
  add_row sk ws we total r w
  = (Ok (add_to total (contribution ws we r)), with_log (skip_entry sk ws we r) w).
Proof.
  intros Ht.
  unfold add_row, try_except, bind, lift, contribution, row_in_span, row_amount,
    skip_entry, row_error.
  destruct (rbind (py_getitem r "Date") safe_parse_date) as [d | e]; cbn.
  - destruct (date_leb ws d && date_leb d we); cbn.
    + unfold rbind at 1.
      destruct (rbind (py_getitem r "Amount") py_float) as [a | e]; cbn.
      * destruct Ht as [-> | [f ->]]; cbn; by rewrite with_log_nil.
      * reflexivity.
    + by rewrite with_log_nil.
  - reflexivity.
Qed.

Lemma skipped_log_cons sk ws we r rows :
  skipped_log sk ws we (r :: rows) = (skip_entry sk ws we r ++ skipped_log sk ws we rows)%list.
Proof.
  unfold skipped_log, skip_entry. cbn.
  destruct (row_error ws we r); reflexivity.
Qed.

Lemma for_each_add_row_exact sk ws we rows : forall total w,
  a_total total ->
  for_each rows (add_row sk ws we) total w
  = (Ok (fold_left add_to (map (contribution ws we) rows) total),
     with_log (skipped_log sk ws we rows) w).
Proof.
  induction rows as [| r rows IH]; intros total w Ht.
  - cbn. by rewrite with_log_nil.
  - cbn [for_each map fold_left]. unfold bind at 1.
    rewrite (add_row_exact sk ws we total r w Ht).
    rewrite (IH _ _ (add_to_total _ (contribution ws we r) Ht)).
    rewrite with_log_app, skipped_log_cons. reflexivity.
Qed.

Lemma sum_loop_exact sk ws we rows w :
  for_each rows (add_row sk ws we) (VInt 0) w
  = (Ok (span_total ws we rows), with_log (skipped_log sk ws we rows) w).
Proof.
  rewrite for_each_add_row_exact by (by left).
  rewrite fold_add_to_zero, contributions_amounts. reflexivity.
Qed.

Lemma calculate_summary_exact ws we w :
  exists b,
    calculate_summary ws we w
    = (Ok (span_total ws we (get_all_records (earnings_sheet w)),
           span_total ws we (get_all_records (expenses_sheet w)), b),
       with_log (skipped_log SkippingEarningsRow ws we (get_all_records (earnings_sheet w))
                 ++ skipped_log SkippingExpensesRow ws we (get_all_records (expenses_sheet w)))
                w).
Proof.
  destruct (py_sub_totals ws we (get_all_records (earnings_sheet w))
              (get_all_records (expenses_sheet w))) as [b Eb].
  exists b. unfold calculate_summary, bind, gets, lift, ret.
  rewrite sum_loop_exact. cbn [expenses_sheet with_log].
  rewrite sum_loop_exact, Eb, with_log_app. reflexivity.
Qed.

Lemma span_amounts_none ws we rows :
  Forall (fun r => contribution ws we r = None) rows -> span_amounts ws we rows = [].
Proof.
  intros H. unfold span_amounts. rewrite <- contributions_amounts.
  induction H as [| r rows Hr _ IH]; cbn; [reflexivity |].
  rewrite Hr. exact IH.
Qed.




End AggregatorFacts.

Section AggregatorExtras.
Context {fs : FloatSyntax}.

(** X3: each of the two loops of [calculate_summary], run over the
    records that [get_all_records] handed over, never raises and writes
    nothing but the log: it yields the running total of the amounts in the
    span, leaves both worksheets, the replies and the sent messages as
    they were, and adds to the log exactly one entry for each skipped row,
    in row order.  A row is skipped when its date raises, or when it lies
    in the span and its amount raises; a row outside the span is never
    logged. *)
Theorem summary_loop_logs_skipped skipping ws we (rows : list row) w :
  for_each rows (add_row skipping ws we) (VInt 0) w
  = (Ok (running_total (span_amounts ws we rows)),
     mkworld (expenses_sheet w) (earnings_sheet w) (replies w) (sent w)
       (errlog w ++ skipped_log skipping ws we rows)).
Proof.
  rewrite for_each_add_row_exact by (by left).
  rewrite fold_add_to_zero, contributions_amounts. reflexivity.
Qed.

(** X4: when no row of either worksheet adds to its total (in particular
    when both worksheets are empty), the totals and the balance are the
    integer 0 each, not floats. *)
Theorem calculate_summary_nothing_in_span ws we w :
  Forall (fun r => contribution ws we r = None) (get_all_records (earnings_sheet w)) ->
  Forall (fun r => contribution ws we r = None) (get_all_records (expenses_sheet w)) ->
  fst (calculate_summary ws we w) = Ok (VInt 0, VInt 0, VInt 0).
Proof.
  intros He Hx. rewrite calculate_summary_result. unfold span_total.
  fold (span_amounts ws we (get_all_records (earnings_sheet w))).
  fold (span_amounts ws we (get_all_records (expenses_sheet w))).
  rewrite (span_amounts_none _ _ _ He), (span_amounts_none _ _ _ Hx). reflexivity.
Qed.


End AggregatorExtras.

Lemma calculate_summary_nothing_in_span_witness :
  fst (@calculate_summary digits_float_of_str (mkdate 2024 6 3) (mkdate 2024 6 9) empty_world)
  = Ok (VInt 0, VInt 0, VInt 0).
Proof.
  apply (@calculate_summary_nothing_in_span digits_float_of_str);
    apply List.Forall_nil.
Defined.


(* ===================================================================== *)
(** * The command handlers *)
(* ===================================================================== *)

Section HandlerFacts.
Context {fs : FloatSyntax}.

Lemma notes_of_args (n : nat) (args : list string) :
  (if Z.of_nat n <? Z.of_nat (length args) then join_blank (drop n args) else ""%string)
  = join_blank (drop n args).
Proof.
  destruct (Z.ltb_spec (Z.of_nat n) (Z.of_nat (length args))) as [H | H]; [reflexivity |].
  rewrite drop_ge by lia. reflexivity.
Qed.

Lemma earn_ok a rest now w f :
  float_of_str a = Some f ->
  earn (a :: rest) now w
  = (Ok tt,
     mkworld (expenses_sheet w)
       (append_row (earnings_sheet w)
          [VStr (strftime_iso now); VStr (strftime_A now); VFloat f; VStr (join_blank rest)])
       (replies w ++ [EarningLogged f (join_blank rest)]) (sent w) (errlog w)).
Proof.
  intros Hf. unfold earn.
  change 1 with (Z.of_nat 1). rewrite notes_of_args.
  unfold try_except, bind, lift. cbn [py_index lookup list_lookup rbind py_float].
  rewrite Hf. reflexivity.
Qed.

Lemma spend_ok a c rest now w f :
  float_of_str a = Some f ->
  spend (a :: c :: rest) now w
  = (Ok tt,
     mkworld
       (append_row (expenses_sheet w)
          [VStr (strftime_iso now); VStr (strftime_A now); VStr c; VFloat f;
           VStr (join_blank rest)])
       (earnings_sheet w)
       (replies w ++ [ExpenseLogged f c (join_blank rest)]) (sent w) (errlog w)).
Proof.
  intros Hf. unfold spend.
  change 2 with (Z.of_nat 2). rewrite notes_of_args.
  unfold try_except, bind, lift. cbn [py_index lookup list_lookup rbind py_float].
  rewrite Hf. reflexivity.
Qed.

Lemma records_append ws values :
  get_all_records (append_row ws values)
  = (get_all_records ws ++ [dict_zip (header ws) values])%list.
Proof. unfold get_all_records, append_row. cbn. apply map_app. Qed.

Lemma span_amounts_app ws we rows1 rows2 :
  span_amounts ws we (rows1 ++ rows2)
  = (span_amounts ws we rows1 ++ span_amounts ws we rows2)%list.
Proof. unfold span_amounts. rewrite List.filter_app, omap_app. reflexivity. Qed.

(** The row that a handler writes, read back as a record. *)
Lemma span_amounts_written ws we (r : row) now f :
  valid_date now = true -> 1000 <= year now ->
  r !! "Date" = Some (VStr (strftime_iso now)) ->
  r !! "Amount" = Some (VFloat f) ->
  span_amounts ws we [r] = if date_leb ws now && date_leb now we then [f] else [].
Proof.
  intros V Hy Hd Ha. unfold span_amounts, row_in_span, row_amount, py_getitem.
  cbn [List.filter]. rewrite Hd. cbn [rbind].
  rewrite (safe_parse_date_iso now V Hy).
  destruct (date_leb ws now && date_leb now we); [| reflexivity].
  cbn. rewrite Ha. reflexivity.
Qed.

Lemma earnings_row_lookup v0 v1 v2 v3 :
  dict_zip earnings_header [v0; v1; v2; v3] !! "Date" = Some v0 /\
  dict_zip earnings_header [v0; v1; v2; v3] !! "Amount" = Some v2.
Proof.
  unfold dict_zip, earnings_header. cbn. split.
  - rewrite !lookup_insert_ne by discriminate. apply lookup_insert_eq.
  - rewrite lookup_insert_ne by discriminate. apply lookup_insert_eq.
Qed.

Lemma expenses_row_lookup v0 v1 v2 v3 v4 :
  dict_zip expenses_header [v0; v1; v2; v3; v4] !! "Date" = Some v0 /\
  dict_zip expenses_header [v0; v1; v2; v3; v4] !! "Amount" = Some v3.
Proof.
  unfold dict_zip, expenses_header. cbn. split.
  - rewrite !lookup_insert_ne by discriminate. apply lookup_insert_eq.
  - rewrite lookup_insert_ne by discriminate. apply lookup_insert_eq.
Qed.

Lemma summary_parts ws we w :
  summary_earnings (fst (calculate_summary ws we w))
  = Some (running_total (span_amounts ws we (get_all_records (earnings_sheet w)))) /\
  summary_expenses (fst (calculate_summary ws we w))
  = Some (running_total (span_amounts ws we (get_all_records (expenses_sheet w)))).
Proof.
  destruct (calculate_summary_exact ws we w) as [b E]. rewrite E. split; reflexivity.
Qed.

End HandlerFacts.

Section HandlerExtras.
Context {fs : FloatSyntax}.

(** X6: [/earn] with no argument, or with a first argument that is not a
    number, replies with its usage text and appends nothing: both
    worksheets are as before. *)
Theorem earn_malformed_leaves_store args now w :
  args = [] \/ (exists a rest, args = a :: rest /\ float_of_str a = None) ->
  exists e,
    earn args now w
    = (Ok tt,
       mkworld (expenses_sheet w) (earnings_sheet w) (replies w ++ [EarnUsage])
               (sent w) (errlog w ++ [ErrorIn "/earn" e])).
Proof.
  intros [-> | (a & rest & -> & Hbad)].
  - exists IndexError. reflexivity.
  - exists ValueError. unfold earn, try_except, bind, lift.
    cbn [py_index lookup list_lookup rbind py_float]. rewrite Hbad. reflexivity.
Qed.

(** X7: [/earn <amount> <notes...>] with a numeric amount appends exactly
    one row to the earnings worksheet, holding today's date as
    YYYY-MM-DD, the name of today's weekday, the amount as a float and the
    notes joined by blanks (empty when there are none); the expenses
    worksheet is untouched and the reply confirms the amount and notes. *)
Theorem earn_appends_one_row a rest now w f :
  float_of_str a = Some f ->
  earn (a :: rest) now w
  = (Ok tt,
     mkworld (expenses_sheet w)
       (mksheet (header (earnings_sheet w))
          (body (earnings_sheet w)
           ++ [ [VStr (strftime_iso now); VStr (strftime_A now); VFloat f;
                 VStr (String.concat " " rest)] ]))
       (replies w ++ [EarningLogged f (String.concat " " rest)]) (sent w) (errlog w)).
Proof. intros Hf. rewrite (earn_ok a rest now w f Hf). reflexivity. Qed.

(** X8: [/spend <amount> <category> <notes...>] with a numeric amount
    appends exactly one row to the expenses worksheet, holding today's
    date, the weekday name, the category, the amount and the joined notes;
    the earnings worksheet is untouched and the reply confirms the
    expense. *)
Theorem spend_appends_one_row a c rest now w f :
  float_of_str a = Some f ->
  spend (a :: c :: rest) now w
  = (Ok tt,
     mkworld
       (mksheet (header (expenses_sheet w))
          (body (expenses_sheet w)
           ++ [ [VStr (strftime_iso now); VStr (strftime_A now); VStr c; VFloat f;
                 VStr (String.concat " " rest)] ]))
       (earnings_sheet w)
       (replies w ++ [ExpenseLogged f c (String.concat " " rest)]) (sent w) (errlog w)).
Proof. intros Hf. rewrite (spend_ok a c rest now w f Hf). reflexivity. Qed.

(** X9: an earning logged by [/earn] on a day with a year of four digits
    (1000 to 9999) counts in the summaries that cover its day, and in no
    other.  With the earnings columns in the order the handler writes
    them, and the store returning cells as written: after [/earn] on such
    a day [now], the total of earnings over a span is the
    running total of the amounts counted before followed by the new
    amount when [week_start <= now <= week_end], and of the amounts
    counted before alone otherwise; the total of expenses is unchanged. *)
Theorem earn_counts_in_summary a rest now w f ws we :
  float_of_str a = Some f ->
  header (earnings_sheet w) = earnings_header ->
  valid_date now = true -> 1000 <= year now ->
  summary_earnings (fst (calculate_summary ws we (snd (earn (a :: rest) now w))))
  = Some (running_total
            (span_amounts ws we (get_all_records (earnings_sheet w))
             ++ (if date_leb ws now && date_leb now we then [f] else []))) /\
  summary_expenses (fst (calculate_summary ws we (snd (earn (a :: rest) now w))))
  = summary_expenses (fst (calculate_summary ws we w)).
Proof.
  intros Hf Hh V Hy. rewrite (earn_ok a rest now w f Hf). cbn [snd].
  split.
  - rewrite (proj1 (summary_parts _ _ _)). cbn [earnings_sheet].
    rewrite records_append, span_amounts_app, Hh.
    destruct (earnings_row_lookup (VStr (strftime_iso now)) (VStr (strftime_A now))
                (VFloat f) (VStr (join_blank rest))) as [Hd Ha].
    rewrite (span_amounts_written ws we _ now f V Hy Hd Ha). reflexivity.
  - rewrite !(proj2 (summary_parts _ _ _)). reflexivity.
Qed.

(** X10: an expense logged by [/spend] on a day with a year of four
    digits (1000 to 9999) counts in the summaries that cover its day, and
    in no other (as X9, for the expenses worksheet). *)
Theorem spend_counts_in_summary a c rest now w f ws we :
  float_of_str a = Some f ->
  header (expenses_sheet w) = expenses_header ->
  valid_date now = true -> 1000 <= year now ->
  summary_expenses (fst (calculate_summary ws we (snd (spend (a :: c :: rest) now w))))
  = Some (running_total
            (span_amounts ws we (get_all_records (expenses_sheet w))
             ++ (if date_leb ws now && date_leb now we then [f] else []))) /\
  summary_earnings (fst (calculate_summary ws we (snd (spend (a :: c :: rest) now w))))
  = summary_earnings (fst (calculate_summary ws we w)).
Proof.
  intros Hf Hh V Hy. rewrite (spend_ok a c rest now w f Hf). cbn [snd].
  split.
  - rewrite (proj2 (summary_parts _ _ _)). cbn [expenses_sheet].
    rewrite records_append, span_amounts_app, Hh.
    destruct (expenses_row_lookup (VStr (strftime_iso now)) (VStr (strftime_A now))
                (VStr c) (VFloat f) (VStr (join_blank rest))) as [Hd Ha].
    rewrite (span_amounts_written ws we _ now f V Hy Hd Ha). reflexivity.
  - rewrite !(proj1 (summary_parts _ _ _)). reflexivity.
Qed.

End HandlerExtras.

Lemma earn_malformed_leaves_store_witness :
  exists e,
    @earn digits_float_of_str ["lots"] (mkdate 2024 6 5) june_world
    = (Ok tt,
       mkworld (expenses_sheet june_world) (earnings_sheet june_world)
               (replies june_world ++ [EarnUsage])
               (sent june_world) (errlog june_world ++ [ErrorIn "/earn" e])).
Proof.
  apply (@earn_malformed_leaves_store digits_float_of_str ["lots"] (mkdate 2024 6 5) june_world).
  right. exists "lots", []. split; reflexivity.
Defined.

Lemma earn_appends_one_row_witness :
  @earn digits_float_of_str ["500"; "bonus"; "payment"] (mkdate 2024 6 5) empty_world
  = (Ok tt,
     mkworld (expenses_sheet empty_world)
       (mksheet (header (earnings_sheet empty_world))
          (body (earnings_sheet empty_world)
           ++ [ [VStr (strftime_iso (mkdate 2024 6 5)); VStr (strftime_A (mkdate 2024 6 5));
                 VFloat 500; VStr (String.concat " " ["bonus"; "payment"])] ]))
       (replies empty_world ++ [EarningLogged 500 (String.concat " " ["bonus"; "payment"])])
       (sent empty_world) (errlog empty_world)).
Proof.
  apply (@earn_appends_one_row digits_float_of_str "500" ["bonus"; "payment"]
           (mkdate 2024 6 5) empty_world 500%float).
  reflexivity.
Defined.

Lemma spend_appends_one_row_witness :
  @spend digits_float_of_str ["12"; "food"; "lunch"] (mkdate 2024 6 5) empty_world
  = (Ok tt,
     mkworld
       (mksheet (header (expenses_sheet empty_world))
          (body (expenses_sheet empty_world)
           ++ [ [VStr (strftime_iso (mkdate 2024 6 5)); VStr (strftime_A (mkdate 2024 6 5));
                 VStr "food"; VFloat 12; VStr (String.concat " " ["lunch"])] ]))
       (earnings_sheet empty_world)
       (replies empty_world ++ [ExpenseLogged 12 "food" (String.concat " " ["lunch"])])
       (sent empty_world) (errlog empty_world)).
Proof.
  apply (@spend_appends_one_row digits_float_of_str "12" "food" ["lunch"]
           (mkdate 2024 6 5) empty_world 12%float).
  reflexivity.
Defined.

Lemma earn_counts_in_summary_witness :
  summary_earnings
    (fst (@calculate_summary digits_float_of_str (mkdate 2024 6 3) (mkdate 2024 6 9)
            (snd (@earn digits_float_of_str ["500"; "bonus"] (mkdate 2024 6 5) june_world))))
  = Some (running_total
            (@span_amounts digits_float_of_str (mkdate 2024 6 3) (mkdate 2024 6 9)
               (get_all_records (earnings_sheet june_world))
             ++ (if date_leb (mkdate 2024 6 3) (mkdate 2024 6 5)
                    && date_leb (mkdate 2024 6 5) (mkdate 2024 6 9)
                 then [500%float] else []))) /\
  summary_expenses
    (fst (@calculate_summary digits_float_of_str (mkdate 2024 6 3) (mkdate 2024 6 9)
            (snd (@earn digits_float_of_str ["500"; "bonus"] (mkdate 2024 6 5) june_world))))
  = summary_expenses
      (fst (@calculate_summary digits_float_of_str (mkdate 2024 6 3) (mkdate 2024 6 9)
              june_world)).
Proof.
  apply (@earn_counts_in_summary digits_float_of_str "500" ["bonus"] (mkdate 2024 6 5)
           june_world 500%float (mkdate 2024 6 3) (mkdate 2024 6 9));
    [reflexivity | reflexivity | reflexivity | discriminate].
Defined.

Lemma spend_counts_in_summary_witness :
  summary_expenses
    (fst (@calculate_summary digits_float_of_str (mkdate 2024 6 3) (mkdate 2024 6 9)
            (snd (@spend digits_float_of_str ["12"; "food"] (mkdate 2024 6 5) june_world))))
  = Some (running_total
            (@span_amounts digits_float_of_str (mkdate 2024 6 3) (mkdate 2024 6 9)
               (get_all_records (expenses_sheet june_world))
             ++ (if date_leb (mkdate 2024 6 3) (mkdate 2024 6 5)
                    && date_leb (mkdate 2024 6 5) (mkdate 2024 6 9)
                 then [12%float] else []))) /\
  summary_earnings
    (fst (@calculate_summary digits_float_of_str (mkdate 2024 6 3) (mkdate 2024 6 9)
            (snd (@spend digits_float_of_str ["12"; "food"] (mkdate 2024 6 5) june_world))))
  = summary_earnings
      (fst (@calculate_summary digits_float_of_str (mkdate 2024 6 3) (mkdate 2024 6 9)
              june_world)).
Proof.
  apply (@spend_counts_in_summary digits_float_of_str "12" "food" [] (mkdate 2024 6 5)
           june_world 12%float (mkdate 2024 6 3) (mkdate 2024 6 9));
    [reflexivity | reflexivity | reflexivity | discriminate].
Defined.

(* ===================================================================== *)
(** * The summary command and the weekly push *)
(* ===================================================================== *)

Section WeekFacts.

(** The week of a date that lies between a Monday [m] and the Sunday
    after it. *)
Lemma week_by_monday m D :
  valid_date D = true ->
  (m + 6) mod 7 = 0 -> 1 <= m -> m + 6 <= _MAXORDINAL ->
  m <= toordinal D <= m + 6 ->
  get_week_range D = Ok (fromordinal m, fromordinal (m + 6)).
Proof.
  intros V Hm H1 Hmax HD.
  pose proof (get_week_range_ordinals D V) as (_ & _ & _ & E).
  rewrite (monday_of_week m D Hm HD) in E. rewrite E.
  destruct (Z.leb_spec (m + 6) _MAXORDINAL); [reflexivity | lia].
Qed.

Lemma get_week_range_cases D :
  valid_date D = true ->
  (date_leb D last_full_week_day = true ->
   exists week_start week_end,
     get_week_range D = Ok (week_start, week_end) /\
     date_leb week_start D = true /\ date_leb D week_end = true) /\
  (date_leb D last_full_week_day = false -> get_week_range D = Raise OverflowError).
Proof.
  intros V.
  pose proof (get_week_range_ordinals D V) as (Hm1 & Hm2 & Hm3 & E).
  set (m := toordinal D - weekday D) in *.
  pose proof (date_leb_toordinal D last_full_week_day V eq_refl) as L.
  change (toordinal last_full_week_day) with 3652054 in L.
  pose proof (toordinal_range D V) as R. unfold _MAXORDINAL in *.
  split.
  - intros Hle. apply L in Hle.
    assert (Hfit : m + 6 <= 3652059) by (Z.div_mod_to_equations; lia).
    replace (m + 6 <=? 3652059) with true in E by (symmetry; apply Z.leb_le; lia).
    exists (fromordinal m), (fromordinal (m + 6)). split; [exact E |].
    split; apply date_leb_toordinal; try assumption;
      try (apply fromordinal_valid; unfold _MAXORDINAL; lia);
      rewrite toordinal_fromordinal by lia; lia.
  - intros Hgt.
    assert (Hlate : 3652054 < toordinal D).
    { destruct (Z.le_gt_cases (toordinal D) 3652054) as [Hle | Hlt]; [| exact Hlt].
      apply L in Hle. congruence. }
    replace (m + 6 <=? 3652059) with false in E; [exact E |].
    symmetry. apply Z.leb_gt. Z.div_mod_to_equations. lia.
Qed.

Lemma sub_days_ok D k :
  1 <= toordinal D - k <= _MAXORDINAL ->
  sub_days D k = Ok (fromordinal (toordinal D - k)).
Proof.
  intros H. unfold sub_days, add_days.
  replace (toordinal D + - k) with (toordinal D - k) by lia.
  replace ((0 <? toordinal D - k) && (toordinal D - k <=? _MAXORDINAL)) with true;
    [reflexivity |].
  symmetry; apply andb_true_intro; split; [apply Z.ltb_lt | apply Z.leb_le]; lia.
Qed.

Lemma sub_days_inv D k D' :
  sub_days D k = Ok D' ->
  1 <= toordinal D - k <= _MAXORDINAL /\ D' = fromordinal (toordinal D - k).
Proof.
  unfold sub_days, add_days.
  replace (toordinal D + - k) with (toordinal D - k) by lia.
  destruct (Z.ltb_spec 0 (toordinal D - k)); [| discriminate].
  destruct (Z.leb_spec (toordinal D - k) _MAXORDINAL); [| discriminate].
  cbn. intros [= <-]. split; [lia | reflexivity].
Qed.

End WeekFacts.

Section PushFacts.
Context {fs : FloatSyntax}.

(** The job, when the day before today lies in the week that starts on
    the Monday of ordinal [m]. *)
Lemma job_in_week cfg today w m :
  valid_date today = true ->
  (m + 6) mod 7 = 0 -> 1 <= m -> m + 6 <= _MAXORDINAL ->
  m <= toordinal today - 1 <= m + 6 ->
  exists earnings expenses balance l,
    calculate_summary (fromordinal m) (fromordinal (m + 6)) w
    = (Ok (earnings, expenses, balance), with_log l w) /\
    send_weekly_summary cfg today w
    = (Ok tt,
       mkworld (expenses_sheet w) (earnings_sheet w) (replies w)
         (sent w ++ [(CHAT_ID cfg,
                      WeeklySummary (fromordinal m) (fromordinal (m + 6))
                        earnings expenses balance)])
         (errlog w ++ l)).
Proof.
  intros V Hm H1 Hmax Ho.
  assert (Ee : sub_days today 1 = Ok (fromordinal (toordinal today - 1)))
    by (apply sub_days_ok; lia).
  assert (Ew : get_week_range (fromordinal (toordinal today - 1))
               = Ok (fromordinal m, fromordinal (m + 6))).
  { apply week_by_monday; try assumption.
    - apply fromordinal_valid; lia.
    - rewrite toordinal_fromordinal by lia. lia. }
  destruct (calculate_summary_exact (fromordinal m) (fromordinal (m + 6)) w) as [b Ec].
  eexists _, _, b, _. split; [exact Ec |].
  unfold send_weekly_summary, try_except, bind, lift.
  rewrite Ee, Ew, Ec. reflexivity.
Qed.

(** The summary command, when today lies in that week. *)
Lemma summary_in_week today w m :
  valid_date today = true ->
  (m + 6) mod 7 = 0 -> 1 <= m -> m + 6 <= _MAXORDINAL ->
  m <= toordinal today <= m + 6 ->
  exists earnings expenses balance l,
    calculate_summary (fromordinal m) (fromordinal (m + 6)) w
    = (Ok (earnings, expenses, balance), with_log l w) /\
    summary today w
    = (Ok tt,
       mkworld (expenses_sheet w) (earnings_sheet w)
         (replies w ++ [WeeklySummary (fromordinal m) (fromordinal (m + 6))
                          earnings expenses balance])
         (sent w) (errlog w ++ l)).
Proof.
  intros V Hm H1 Hmax Ho.
  pose proof (week_by_monday m today V Hm H1 Hmax Ho) as Ew.
  destruct (calculate_summary_exact (fromordinal m) (fromordinal (m + 6)) w) as [b Ec].
  eexists _, _, b, _. split; [exact Ec |].
  unfold summary, try_except, bind, lift.
  rewrite Ew, Ec. reflexivity.
Qed.

Lemma monday_ordinal T :
  valid_date T = true -> fires_on T = true -> T <> date_min ->
  8 <= toordinal T <= _MAXORDINAL /\ (toordinal T - 7 + 6) mod 7 = 0.
Proof.
  intros V F N.
  pose proof (after_date_min T V N) as H2.
  pose proof (toordinal_range T V) as R.
  unfold fires_on, trigger_day_of_week in F. apply Z.eqb_eq in F.
  unfold weekday in F. Z.div_mod_to_equations. lia.
Qed.

End PushFacts.

Section PushExtras.
Context {fs : FloatSyntax}.

(** X11: [/summary] replies exactly once and writes nothing else but the
    log.  On every day up to 9999-12-26 the reply is the summary of the
    Monday-to-Sunday week that contains today, with the totals of
    [calculate_summary] for that week; on the five later days the week
    range overflows and the reply is the generic error text.  Neither
    worksheet changes and nothing is pushed. *)
Theorem summary_replies_once today w :
  valid_date today = true ->
  (date_leb today last_full_week_day = true ->
   exists week_start week_end totals l,
     get_week_range today = Ok (week_start, week_end) /\
     date_leb week_start today = true /\ date_leb today week_end = true /\
     calculate_summary week_start week_end w = (Ok totals, with_log l w) /\
     summary today w
     = (Ok tt,
        mkworld (expenses_sheet w) (earnings_sheet w)
          (replies w ++ [WeeklySummary week_start week_end
                           (fst (fst totals)) (snd (fst totals)) (snd totals)])
          (sent w) (errlog w ++ l))) /\
  (date_leb today last_full_week_day = false ->
   summary today w
   = (Ok tt,
      mkworld (expenses_sheet w) (earnings_sheet w) (replies w ++ [SummaryError])
        (sent w) (errlog w ++ [ErrorIn "/summary" OverflowError]))).
Proof.
  intros V. destruct (get_week_range_cases today V) as [Hin Hout]. split.
  - intros Hle. destruct (Hin Hle) as (s & e & Ew & Hs & He).
    destruct (calculate_summary_exact s e w) as [b Ec].
    eexists s, e, _, _. repeat split; try eassumption.
    unfold summary, try_except, bind, lift. rewrite Ew, Ec. reflexivity.
  - intros Hgt. unfold summary, try_except, bind, lift. rewrite (Hout Hgt). reflexivity.
Qed.

(** X12: the weekly push repeats what [/summary] showed.  For a Monday
    [T] (other than 0001-01-01) and any of the seven days [D] before it,
    the message that the job sends on [T] has the same span and totals as
    the reply of [/summary] on [D], the worksheets being the same. *)
Theorem weekly_push_matches_summary cfg T D k w :
  valid_date T = true -> fires_on T = true -> T <> date_min ->
  1 <= k <= 7 -> sub_days T k = Ok D ->
  exists week_start week_end earnings expenses balance,
    replies (snd (summary D w))
    = (replies w ++ [WeeklySummary week_start week_end earnings expenses balance])%list /\
    sent (snd (send_weekly_summary cfg T w))
    = (sent w ++ [(CHAT_ID cfg,
                   WeeklySummary week_start week_end earnings expenses balance)])%list.
Proof.
  intros V F N Hk HD.
  destruct (monday_ordinal T V F N) as [Ho Hm].
  apply sub_days_inv in HD as [HDr ->].
  set (m := toordinal T - 7) in *.
  assert (VD : valid_date (fromordinal (toordinal T - k)) = true)
    by (apply fromordinal_valid; lia).
  destruct (job_in_week cfg T w m V Hm) as (e1 & x1 & b1 & l1 & Ec1 & Ej);
    try (subst m; lia).
  destruct (summary_in_week (fromordinal (toordinal T - k)) w m VD Hm)
    as (e2 & x2 & b2 & l2 & Ec2 & Es); try (subst m; lia).
  { rewrite toordinal_fromordinal by lia. subst m. lia. }
  rewrite Ec1 in Ec2. injection Ec2 as <- <- <- _.
  exists (fromordinal m), (fromordinal (m + 6)), e1, x1, b1.
  rewrite Es, Ej. split; reflexivity.
Qed.

(** X13: the job does not depend on running exactly on the Monday: run
    on any of the six days before a Monday [T], for instance on the
    Sunday when the server's date is still a day behind the trigger's, it
    does exactly what it does on [T]. *)
Theorem weekly_push_same_within_week cfg T D k w :
  valid_date T = true -> fires_on T = true -> T <> date_min ->
  0 <= k <= 6 -> sub_days T k = Ok D ->
  send_weekly_summary cfg D w = send_weekly_summary cfg T w.
Proof.
  intros V F N Hk HD.
  destruct (monday_ordinal T V F N) as [Ho Hm].
  apply sub_days_inv in HD as [HDr ->].
  set (m := toordinal T - 7) in *.
  assert (VD : valid_date (fromordinal (toordinal T - k)) = true)
    by (apply fromordinal_valid; lia).
  destruct (job_in_week cfg T w m V Hm) as (e1 & x1 & b1 & l1 & Ec1 & Ej);
    try (subst m; lia).
  destruct (job_in_week cfg (fromordinal (toordinal T - k)) w m VD Hm)
    as (e2 & x2 & b2 & l2 & Ec2 & Ej2); try (subst m; lia).
  { rewrite toordinal_fromordinal by lia. subst m. lia. }
  rewrite Ec1 in Ec2. injection Ec2 as <- <- <- Hl.
  rewrite Ej, Ej2. unfold with_log in Hl. congruence.
Qed.

(** X14: whatever the day and the configuration, the scheduled job never
    raises, never replies in a chat and never writes to a worksheet; it
    sends at most one message, and only to the configured CHAT_ID. *)
Theorem weekly_push_effects cfg today w :
  fst (send_weekly_summary cfg today w) = Ok tt /\
  expenses_sheet (snd (send_weekly_summary cfg today w)) = expenses_sheet w /\
  earnings_sheet (snd (send_weekly_summary cfg today w)) = earnings_sheet w /\
  replies (snd (send_weekly_summary cfg today w)) = replies w /\
  (sent (snd (send_weekly_summary cfg today w)) = sent w \/
   exists t, sent (snd (send_weekly_summary cfg today w))
             = (sent w ++ [(CHAT_ID cfg, t)])%list).
Proof.
  unfold send_weekly_summary, try_except, bind, lift.
  destruct (sub_days today 1) as [d | e]; [| cbn; auto 6].
  destruct (get_week_range d) as [[s e] | e']; [| cbn; auto 6].
  destruct (calculate_summary_exact s e w) as [b Ec]. rewrite Ec. cbn.
  repeat split; eauto.
Qed.

End PushExtras.

Lemma summary_replies_once_witness :
  exists week_start week_end totals l,
    get_week_range (mkdate 2024 6 5) = Ok (week_start, week_end) /\
    date_leb week_start (mkdate 2024 6 5) = true /\
    date_leb (mkdate 2024 6 5) week_end = true /\
    @calculate_summary digits_float_of_str week_start week_end june_world
    = (Ok totals, with_log l june_world) /\
    @summary digits_float_of_str (mkdate 2024 6 5) june_world
    = (Ok tt,
       mkworld (expenses_sheet june_world) (earnings_sheet june_world)
         (replies june_world ++ [WeeklySummary week_start week_end
                                   (fst (fst totals)) (snd (fst totals)) (snd totals)])
         (sent june_world) (errlog june_world ++ l)).
Proof.
  apply (proj1 (@summary_replies_once digits_float_of_str (mkdate 2024 6 5) june_world
                  eq_refl)).
  reflexivity.
Defined.

Lemma weekly_push_matches_summary_witness :
  exists week_start week_end earnings expenses balance,
    replies (snd (@summary digits_float_of_str (mkdate 2024 6 5) june_world))
    = (replies june_world
       ++ [WeeklySummary week_start week_end earnings expenses balance])%list /\
    sent (snd (@send_weekly_summary digits_float_of_str full_config (mkdate 2024 6 10)
                 june_world))
    = (sent june_world
       ++ [(CHAT_ID full_config,
            WeeklySummary week_start week_end earnings expenses balance)])%list.
Proof.
  apply (@weekly_push_matches_summary digits_float_of_str full_config (mkdate 2024 6 10)
           (mkdate 2024 6 5) 5 june_world);
    [reflexivity | reflexivity | discriminate | lia | reflexivity].
Defined.

Lemma weekly_push_same_within_week_witness :
  @send_weekly_summary digits_float_of_str full_config (mkdate 2024 6 9) june_world
  = @send_weekly_summary digits_float_of_str full_config (mkdate 2024 6 10) june_world.
Proof.
  apply (@weekly_push_same_within_week digits_float_of_str full_config (mkdate 2024 6 10)
           (mkdate 2024 6 9) 1 june_world);
    [reflexivity | reflexivity | discriminate | lia | reflexivity].
Defined.

(* ===================================================================== *)
(** * Start-up configuration: what passes the check *)
(* ===================================================================== *)

(** X15: the configuration check passes exactly when the token, the sheet
    identifier and the credentials are all set to non-empty strings (an
    empty value counts as missing); the configuration it then yields holds
    these three values and CHAT_ID as the environment has it, set or not. *)
Theorem load_config_passes_iff environ c :
  load_config environ = Ok c <->
  exists token sheet creds,
    environ !! "TELEGRAM_TOKEN" = Some token /\ token <> ""%string /\
    environ !! "SHEET_ID" = Some sheet /\ sheet <> ""%string /\
    environ !! "GOOGLE_CREDENTIALS" = Some creds /\ creds <> ""%string /\
    c = mkconfig (Some token) (Some sheet) (Some creds) (environ !! "CHAT_ID").
Proof.
  unfold load_config, py_not. split.
  - destruct (environ !! "TELEGRAM_TOKEN") as [t |]; [| discriminate].
    destruct (String.eqb_spec t "") as [-> | Ht]; [discriminate |].
    destruct (environ !! "SHEET_ID") as [s |]; [| discriminate].
    destruct (String.eqb_spec s "") as [-> | Hs]; [discriminate |].
    destruct (environ !! "GOOGLE_CREDENTIALS") as [g |]; [| discriminate].
    destruct (String.eqb_spec g "") as [-> | Hg]; [discriminate |].
    cbn. intros [= <-]. exists t, s, g. auto 10.
  - intros (t & s & g & -> & Ht & -> & Hs & -> & Hg & ->).
    apply String.eqb_neq in Ht, Hs, Hg. rewrite Ht, Hs, Hg. reflexivity.
Qed.

(* ===================================================================== *)
(** * The two readings of a slash date *)
(* ===================================================================== *)

Module SlashFacts.

Lemma pattern_day_first :
  Strptime.pattern "%d/%m/%Y"
  = Ok [Strptime.Group "d" alts_d; Strptime.Lit "/"; Strptime.Group "m" alts_m;
        Strptime.Lit "/"; Strptime.Group "Y" alts_Y].
Proof. reflexivity. Qed.

Lemma pattern_month_first :
  Strptime.pattern "%m/%d/%Y"
  = Ok [Strptime.Group "m" alts_m; Strptime.Lit "/"; Strptime.Group "d" alts_d;
        Strptime.Lit "/"; Strptime.Group "Y" alts_Y].
Proof. reflexivity. Qed.

(** What the classes of an alternative match holds no separator when
    none of the classes does. *)
Lemma match_classes_split ks : forall s cap rest,
  forallb (fun k => negb (Strptime.in_class "/" k)) ks = true ->
  Strptime.match_classes ks s = Some (cap, rest) ->
  s = (cap +:+ rest) /\ slash_free cap = true /\ String.length cap = length ks.
Proof.
  induction ks as [| k ks IH]; intros s cap rest Hk; cbn.
  - intros [= <- <-]. auto.
  - destruct s as [| c s']; [discriminate |].
    destruct (Strptime.in_class c k) eqn:Hc; [| discriminate].
    destruct (Strptime.match_classes ks s') as [[cap' r'] |] eqn:E; [| discriminate].
    intros [= <- <-]. cbn in Hk. apply andb_prop in Hk as [Hk1 Hk2].
    destruct (IH _ _ _ Hk2 E) as (-> & Hfree & Hlen).
    repeat split; cbn; [| f_equal; exact Hlen].
    rewrite Hfree, andb_true_r.
    destruct (Ascii.eqb_spec c "/") as [-> | _]; [| reflexivity].
    rewrite Hc in Hk1. discriminate.
Qed.

Lemma group_then_split x alts k s caps fin :
  avoid_slash alts = true ->
  group_then x alts (lit_then "/" k) s = Some (caps, fin) ->
  exists t rest caps',
    s = (t +:+ String "/" rest) /\ slash_free t = true /\
    (shortest alts <= String.length t <= longest alts)%nat /\
    k rest = Some (caps', fin) /\ caps = (x, t) :: caps'.
Proof.
  intros Ha H. unfold group_then in H.
  apply ParserFacts.first_some_Some in H as (alt & Hin & H).
  destruct (Strptime.match_classes alt s) as [[cap r1] |] eqn:E; [| discriminate].
  unfold avoid_slash in Ha. rewrite forallb_forall in Ha.
  destruct (match_classes_split alt s cap r1 (Ha alt Hin) E) as (-> & Hfree & Hlen).
  destruct r1 as [| c r1]; [discriminate |]. cbn [lit_then] in H.
  destruct (Ascii.eqb_spec "/" c) as [<- | _]; [| discriminate].
  destruct (k r1) as [[caps' fin'] |] eqn:Ek; [| discriminate].
  injection H as <- <-.
  exists cap, r1, caps'. repeat split; try assumption; rewrite Hlen.
  - apply ParserFacts.shortest_le. exact Hin.
  - apply ParserFacts.longest_ge. exact Hin.
Qed.

Lemma split_unique t : forall t' rest rest',
  slash_free t = true -> slash_free t' = true ->
  (t +:+ String "/" rest) = (t' +:+ String "/" rest') -> t = t' /\ rest = rest'.
Proof.
  induction t as [| c t IH]; intros [| c' t'] rest rest' Ht Ht' E; cbn in *.
  - injection E as ->. auto.
  - injection E as <- _. cbn in Ht'. discriminate.
  - injection E as -> _. cbn in Ht. discriminate.
  - injection E as -> E. apply andb_prop in Ht as [_ Ht], Ht' as [_ Ht'].
    destruct (IH _ _ _ Ht Ht' E) as [-> ->]. auto.
Qed.

Lemma year_group s caps :
  Strptime.re_match [Strptime.Group "Y" alts_Y] s = Some (caps, EmptyString) ->
  caps = [("Y"%char, s)].
Proof.
  cbn [Strptime.re_match]. intros H.
  apply ParserFacts.first_some_Some in H as (alt & Hin & H).
  destruct (Strptime.match_classes alt s) as [[cap r1] |] eqn:E; [| discriminate].
  injection H as <- ->.
  assert (Hs : s = cap); [| congruence].
  clear Hin. revert s cap E. induction alt as [| k alt IH]; intros s cap; cbn.
  - intros [= <- <-]. reflexivity.
  - destruct s as [| c s']; [discriminate |].
    destruct (Strptime.in_class c k); [| discriminate].
    destruct (Strptime.match_classes alt s') as [[cap' r'] |] eqn:E; [| discriminate].
    intros [= <- ->]. f_equal. apply IH. exact E.
Qed.

(** The three texts of a string that a slash format matches. *)
Lemma slash_texts x1 alts1 x2 alts2 s caps :
  avoid_slash alts1 = true -> avoid_slash alts2 = true ->
  Strptime.re_match [Strptime.Group x1 alts1; Strptime.Lit "/"; Strptime.Group x2 alts2;
                     Strptime.Lit "/"; Strptime.Group "Y" alts_Y] s
  = Some (caps, EmptyString) ->
  exists t1 t2 t3,
    s = (t1 +:+ String "/" (t2 +:+ String "/" t3)) /\
    slash_free t1 = true /\ slash_free t2 = true /\
    (shortest alts1 <= String.length t1 <= longest alts1)%nat /\
    caps = [(x1, t1); (x2, t2); ("Y"%char, t3)].
Proof.
  intros H1 H2 H. rewrite IsoText.re_match_group_lit in H.
  apply (group_then_split _ _ _ _ _ _ H1) in H
    as (t1 & r1 & caps1 & -> & F1 & L1 & K1 & ->).
  rewrite IsoText.re_match_group_lit in K1.
  apply (group_then_split _ _ _ _ _ _ H2) in K1
    as (t2 & r2 & caps2 & -> & F2 & L2 & K2 & ->).
  apply year_group in K2 as ->.
  exists t1, t2, r2. auto.
Qed.

(** A string that starts with one or two characters and a slash is not
    an ISO date. *)
Lemma iso_rejects_slash t rest :
  (1 <= String.length t <= 2)%nat ->
  Strptime.strptime (t +:+ String "/" rest) "%Y-%m-%d" = Raise ValueError.
Proof.
  intros Hl. unfold Strptime.strptime. rewrite IsoText.pattern_iso. cbn [rbind].
  destruct t as [| a [| b [| c t]]]; cbn in Hl; try lia.
  - unfold alts_Y. cbv [String.append].
    cbn [Strptime.re_match Strptime.first_some Strptime.match_classes].
    destruct (Strptime.in_class a Strptime.digit); reflexivity.
  - unfold alts_Y. cbv [String.append].
    cbn [Strptime.re_match Strptime.first_some Strptime.match_classes].
    destruct (Strptime.in_class a Strptime.digit); [| reflexivity].
    destruct (Strptime.in_class b Strptime.digit); reflexivity.
Qed.

End SlashFacts.

(** X16: the ambiguity of slash dates is a swap of day and month.
    Whenever both %d/%m/%Y and %m/%d/%Y parse a string, the two dates have
    the same year and exchanged day and month (so both numbers are at most
    12), the ISO format does not parse the string, and [safe_parse_date]
    returns the day-first date. *)
Theorem slash_readings_swap s d1 d2 :
  Strptime.strptime s "%d/%m/%Y" = Ok d1 ->
  Strptime.strptime s "%m/%d/%Y" = Ok d2 ->
  year d2 = year d1 /\ month d2 = day d1 /\ day d2 = month d1 /\
  day d1 <= 12 /\ month d1 <= 12 /\
  Strptime.strptime s "%Y-%m-%d" = Raise ValueError /\
  safe_parse_date (VStr s) = Ok d1.
Proof.
  intros H1 H2.
  pose proof (valid_date_fields _ (ParserFacts.strptime_valid _ _ _ H1)) as (_ & Hm1 & _).
  pose proof (valid_date_fields _ (ParserFacts.strptime_valid _ _ _ H2)) as (_ & Hm2 & _).
  assert (Hiso : Strptime.strptime s "%Y-%m-%d" = Raise ValueError /\
                 exists t1 t2 t3,
                   d1 = mkdate (Strptime.int_of t3 0) (Strptime.int_of t2 0) (Strptime.int_of t1 0) /\
                   d2 = mkdate (Strptime.int_of t3 0) (Strptime.int_of t1 0) (Strptime.int_of t2 0)).
  { unfold Strptime.strptime in H1, H2.
    rewrite SlashFacts.pattern_day_first in H1. rewrite SlashFacts.pattern_month_first in H2.
    cbn [rbind] in H1, H2.
    destruct (Strptime.re_match _ s) as [[caps1 [| ? ?]] |] eqn:E1 in H1; try discriminate.
    destruct (Strptime.re_match _ s) as [[caps2 [| ? ?]] |] eqn:E2 in H2; try discriminate.
    apply SlashFacts.slash_texts in E1 as (t1 & t2 & t3 & Hs & F1 & F2 & L1 & ->);
      [| reflexivity | reflexivity].
    apply SlashFacts.slash_texts in E2 as (u1 & u2 & u3 & Hs' & G1 & G2 & _ & ->);
      [| reflexivity | reflexivity].
    rewrite Hs in Hs'.
    apply SlashFacts.split_unique in Hs' as [<- Hs']; try assumption.
    apply SlashFacts.split_unique in Hs' as [<- <-]; try assumption.
    split.
    - rewrite Hs. apply SlashFacts.iso_rejects_slash. cbn in L1. exact L1.
    - exists t1, t2, t3.
      unfold Strptime.field in H1, H2. cbn [Strptime.group Ascii.eqb Bool.eqb] in H1, H2.
      unfold make_date in H1, H2.
      destruct (valid_date _) in H1; [| discriminate].
      destruct (valid_date _) in H2; [| discriminate].
      injection H1 as <-. injection H2 as <-. auto. }
  destruct Hiso as (Hiso & t1 & t2 & t3 & -> & ->). cbn [year month day] in *.
  repeat split; try reflexivity; try lia; [exact Hiso |].
  unfold safe_parse_date, date_formats. cbn [try_formats strptime_date].
  rewrite Hiso, H1. reflexivity.
Qed.

Lemma slash_readings_swap_witness :
  year (mkdate 2024 3 4) = year (mkdate 2024 4 3) /\
  month (mkdate 2024 3 4) = day (mkdate 2024 4 3) /\
  day (mkdate 2024 3 4) = month (mkdate 2024 4 3) /\
  day (mkdate 2024 4 3) <= 12 /\ month (mkdate 2024 4 3) <= 12 /\
  Strptime.strptime "03/04/2024" "%Y-%m-%d" = Raise ValueError /\
  safe_parse_date (VStr "03/04/2024") = Ok (mkdate 2024 4 3).
Proof.
  apply (slash_readings_swap "03/04/2024" (mkdate 2024 4 3) (mkdate 2024 3 4));
    reflexivity.
Defined.

(** X17: an ISO date has one reading only: a string that %Y-%m-%d parses
    is parsed by neither slash format. *)
Theorem iso_reading_unique s d :
  Strptime.strptime s "%Y-%m-%d" = Ok d ->
  Strptime.strptime s "%d/%m/%Y" = Raise ValueError /\
  Strptime.strptime s "%m/%d/%Y" = Raise ValueError.
Proof.
  intros Hiso.
  assert (K : forall x1 alts1 x2 alts2 caps,
             avoid_slash alts1 = true -> avoid_slash alts2 = true ->
             (1 <= shortest alts1)%nat -> (longest alts1 <= 2)%nat ->
             Strptime.re_match [Strptime.Group x1 alts1; Strptime.Lit "/";
                                Strptime.Group x2 alts2; Strptime.Lit "/";
                                Strptime.Group "Y" alts_Y] s
             <> Some (caps, EmptyString)).
  { intros x1 alts1 x2 alts2 caps A1 A2 L1 L2 E.
    apply SlashFacts.slash_texts in E as (t1 & t2 & t3 & Hs & _ & _ & L & _); try assumption.
    rewrite Hs, SlashFacts.iso_rejects_slash in Hiso by lia. discriminate. }
  unfold Strptime.strptime.
  rewrite SlashFacts.pattern_day_first, SlashFacts.pattern_month_first. cbn [rbind].
  split.
  - destruct (Strptime.re_match _ s) as [[caps [| ? ?]] |] eqn:E; try reflexivity.
    exfalso. refine (K _ alts_d _ alts_m caps eq_refl eq_refl _ _ E); cbn; lia.
  - destruct (Strptime.re_match _ s) as [[caps [| ? ?]] |] eqn:E; try reflexivity.
    exfalso. refine (K _ alts_m _ alts_d caps eq_refl eq_refl _ _ E); cbn; lia.
Qed.

Lemma iso_reading_unique_witness :
  Strptime.strptime "2024-06-03" "%d/%m/%Y" = Raise ValueError /\
  Strptime.strptime "2024-06-03" "%m/%d/%Y" = Raise ValueError.
Proof.
  apply (iso_reading_unique "2024-06-03" (mkdate 2024 6 3)). reflexivity.
Defined.

(* ===================================================================== *)
(** * Weeks follow one another *)
(* ===================================================================== *)

Lemma get_week_range_inv D week_start week_end :
  valid_date D = true ->
  get_week_range D = Ok (week_start, week_end) ->
  exists m, 1 <= m /\ (m + 6) mod 7 = 0 /\ m + 6 <= _MAXORDINAL /\
            week_start = fromordinal m /\ week_end = fromordinal (m + 6).
Proof.
  intros V E.
  pose proof (get_week_range_ordinals D V) as (Hm1 & Hm2 & Hm3 & E').
  remember (toordinal D - weekday D) as m eqn:Hm0.
  rewrite E in E'.
  destruct (Z.leb_spec (m + 6) _MAXORDINAL) as [Hfit | Hover]; [| discriminate E'].
  injection E' as -> ->.
  exists m. repeat split; try assumption; lia.
Qed.

(** X18: the spans of [get_week_range] tile the calendar: the day after
    the end of a span starts the next span, which ends seven days after
    the first one does (as long as that day is a date). *)
Theorem get_week_range_next_week D week_start week_end next :
  valid_date D = true ->
  get_week_range D = Ok (week_start, week_end) ->
  add_days week_end 1 = Ok next ->
  toordinal week_end + 7 <= _MAXORDINAL ->
  exists next_end,
    get_week_range next = Ok (next, next_end) /\
    add_days week_end 7 = Ok next_end /\
    date_leb week_end next = true /\ week_end <> next.
Proof.
  intros V E En Hmax.
  destruct (get_week_range_inv D week_start week_end V E) as (m & Hm1 & Hm3 & Hfit & -> & ->).
  assert (Oe : toordinal (fromordinal (m + 6)) = m + 6) by (apply toordinal_fromordinal; lia).
  rewrite Oe in Hmax.
  assert (En' : add_days (fromordinal (m + 6)) 1 = Ok (fromordinal (m + 7))).
  { unfold add_days. rewrite Oe. replace (m + 6 + 1) with (m + 7) by lia.
    destruct (Z.ltb_spec 0 (m + 7)); [| lia].
    destruct (Z.leb_spec (m + 7) _MAXORDINAL); [reflexivity | lia]. }
  rewrite En' in En. injection En as <-.
  assert (Vn : valid_date (fromordinal (m + 7)) = true) by (apply fromordinal_valid; lia).
  assert (Ve : valid_date (fromordinal (m + 6)) = true) by (apply fromordinal_valid; lia).
  assert (On : toordinal (fromordinal (m + 7)) = m + 7) by (apply toordinal_fromordinal; lia).
  assert (Hm7 : (m + 7 + 6) mod 7 = 0) by (Z.div_mod_to_equations; lia).
  exists (fromordinal (m + 7 + 6)). split; [| split; [| split]].
  - apply week_by_monday; try assumption; try lia.
  - unfold add_days. rewrite Oe. replace (m + 6 + 7) with (m + 7 + 6) by lia.
    destruct (Z.ltb_spec 0 (m + 7 + 6)); [| lia].
    destruct (Z.leb_spec (m + 7 + 6) _MAXORDINAL); [reflexivity | lia].
  - apply date_leb_toordinal; try assumption. lia.
  - intros Heq. apply (f_equal toordinal) in Heq. lia.
Qed.

Lemma get_week_range_next_week_witness :
  exists next_end,
    get_week_range (mkdate 2024 6 10) = Ok (mkdate 2024 6 10, next_end) /\
    add_days (mkdate 2024 6 9) 7 = Ok next_end /\
    date_leb (mkdate 2024 6 9) (mkdate 2024 6 10) = true /\
    mkdate 2024 6 9 <> mkdate 2024 6 10.
Proof.
  apply (get_week_range_next_week (mkdate 2024 6 5) (mkdate 2024 6 3) (mkdate 2024 6 9)
           (mkdate 2024 6 10)); [reflexivity | reflexivity | reflexivity |].
  vm_compute. discriminate.
Defined.

Lemma load_config_passes_iff_witness :
  load_config environ_without_chat_id
  = Ok (mkconfig (Some "token") (Some "sheet") (Some "{}")
          (environ_without_chat_id !! "CHAT_ID")).
Proof.
  apply (proj2 (load_config_passes_iff environ_without_chat_id
                  (mkconfig (Some "token") (Some "sheet") (Some "{}")
                     (environ_without_chat_id !! "CHAT_ID")))).
  exists "token", "sheet", "{}".
  repeat split; try discriminate; vm_compute; reflexivity.
Defined.
